(** * auto_news_scraper: the polling pipeline of [main.py]

    A shallow embedding of [DatabaseManager] and [NewsBot] and the
    properties of the ingestion / dedup / enrichment / fan-out pipeline.

    Conventions of the embedding.
    - Python text is a Rocq [string]; one [ascii] stands for one character
      with a code point below 256.
    - An [async] method is a computation in the monad [M]: it threads a
      state and either returns a value or raises an exception.  [await]
      is sequencing.  Only subclasses of [Exception] are represented.
    - The outside world (feed transport, generation backend, Discord) is
      an environment [Env] of oracles indexed by the number of external
      calls made so far, so an oracle may answer differently at each call.
    - Console output ([print]) is not part of the state; attribute reads
      made while building a printed line are kept, since they can raise.
    - The SQLite engine is taken to be available: of the errors
      [cursor.execute] can raise only the violation of the [PRIMARY KEY]
      constraint is represented.  The column [posted_at], which the
      engine fills and [main.py] never reads, is left out of a row. *)

From Stdlib Require Import String Ascii List ZArith Bool Arith Lia DecimalString.
Import ListNotations.
Local Open Scope list_scope.
Local Open Scope string_scope.

(** ** Python values *)

Module Py.

(** Exceptions, by the classes the program distinguishes. [Exception]
    stands for every other subclass; the payload is [str(e)]. *)
Inductive exn : Type :=
| IntegrityError (msg : string)
| UnboundLocalError (msg : string)
| AttributeError (msg : string)
| Exception (msg : string).

Definition str_exn (e : exn) : string :=
  match e with
  | IntegrityError m | UnboundLocalError m | AttributeError m | Exception m => m
  end.

Definition is_IntegrityError (e : exn) : bool :=
  match e with IntegrityError _ => true | _ => false end.

(** [except Exception] *)
Definition is_Exception (e : exn) : bool := true.

Inductive result (A : Type) : Type :=
| Ok (a : A)
| Raise (e : exn).
Arguments Ok {A} a.
Arguments Raise {A} e.

Definition nl : string := String (ascii_of_nat 10) EmptyString.

(** [str.isspace] on one character below 256 *)
Definition isspace (c : ascii) : bool :=
  let n := nat_of_ascii c in
  ((9 <=? n)%nat && (n <=? 13)%nat) || ((28 <=? n)%nat && (n <=? 32)%nat)
  || (n =? 133)%nat || (n =? 160)%nat.

Fixpoint lstrip (s : string) : string :=
  match s with
  | EmptyString => EmptyString
  | String c r => if isspace c then lstrip r else s
  end.

Fixpoint rstrip (s : string) : string :=
  match s with
  | EmptyString => EmptyString
  | String c r =>
      match rstrip r with
      | EmptyString => if isspace c then EmptyString else String c EmptyString
      | r' => String c r'
      end
  end.

(** [s.strip()] *)
Definition strip (s : string) : string := rstrip (lstrip s).

(** [c in s] for a one-character [c] *)
Fixpoint contains (c : ascii) (s : string) : bool :=
  match s with
  | EmptyString => false
  | String d r => Ascii.eqb d c || contains c r
  end.

(** [bool(s)] *)
Definition truthy (s : string) : bool :=
  match s with EmptyString => false | _ => true end.

(** [f"{n}"] for an [int] *)
Definition str_int (n : Z) : string := NilZero.string_of_int (Z.to_int n).

(** [d.get(k, default)] on a dict with text keys and values *)
Fixpoint dict_get (d : list (string * string)) (k default : string) : string :=
  match d with
  | [] => default
  | (k', v) :: d' => if k' =? k then v else dict_get d' k default
  end.

End Py.
Import Py.

(** ** Computations with state and exceptions *)

Definition M (S A : Type) : Type := S -> result A * S.

Definition ret {S A} (a : A) : M S A := fun s => (Ok a, s).

Definition raise {S A} (e : exn) : M S A := fun s => (Raise e, s).

Definition bind {S A B} (c : M S A) (k : A -> M S B) : M S B :=
  fun s =>
    match c s with
    | (Ok a, s') => k a s'
    | (Raise e, s') => (Raise e, s')
    end.

Notation "x <- c ;; k" := (bind c (fun x => k))
  (at level 61, c at next level, right associativity).
Notation "c ;;; k" := (bind c (fun _ => k))
  (at level 61, right associativity).

(** [try: c  except <class> as e: h e]; an exception of another class
    propagates. *)
Definition try_except {S A} (c : M S A) (catches : exn -> bool)
    (h : exn -> M S A) : M S A :=
  fun s =>
    match c s with
    | (Ok a, s') => (Ok a, s')
    | (Raise e, s') => if catches e then h e s' else (Raise e, s')
    end.

(** [for x in xs: body x] *)
Fixpoint for_each {S A} (xs : list A) (body : A -> M S unit) : M S unit :=
  match xs with
  | [] => ret tt
  | x :: xs' => body x ;;; for_each xs' body
  end.

(** ** DatabaseManager *)

Record Row : Type := { url : string; summary : string }.

(** The rows of [posted_articles], in insertion order. *)
Definition Table : Type := list Row.

Module DatabaseManager.

Definition has_url (u : string) (t : Table) : bool :=
  existsb (fun r => url r =? u) t.

(** [CREATE TABLE IF NOT EXISTS posted_articles (url TEXT PRIMARY KEY,
    summary TEXT, posted_at ...)] on a database file that holds the
    table ([Some]) or does not ([None]).  The [ALTER TABLE] that follows
    raises [OperationalError] on a table that has the column, which
    [create_table] swallows. *)
Definition create_table (file : option Table) : Table :=
  match file with
  | None => []
  | Some t => t
  end.

(** [SELECT 1 FROM posted_articles WHERE url = ?] and [fetchone() is
    not None] *)
Definition is_posted (u : string) : M Table bool :=
  fun t => (Ok (has_url u t), t).

(** [INSERT INTO posted_articles (url, summary) VALUES (?, ?)] under the
    [PRIMARY KEY] constraint on [url]. *)
Definition execute_insert (u s : string) : M Table unit :=
  fun t =>
    if has_url u t
    then (Raise (IntegrityError "UNIQUE constraint failed: posted_articles.url"), t)
    else (Ok tt, (t ++ [{| url := u; summary := s |}])%list).

Definition add_article (u s : string) : M Table unit :=
  try_except (execute_insert u s) is_IntegrityError (fun _ => ret tt).

(** The operations a client of the store can perform. *)
Inductive op : Type :=
| OpCreateTable
| OpIsPosted (u : string)
| OpAddArticle (u s : string).

Definition run_op (t : Table) (o : op) : Table :=
  match o with
  | OpCreateTable => create_table (Some t)
  | OpIsPosted u => snd (is_posted u t)
  | OpAddArticle u s => snd (add_article u s t)
  end.

(** States of the table reachable from a fresh database file. *)
Inductive reachable : Table -> Prop :=
| reach_init : reachable (create_table None)
| reach_step t o : reachable t -> reachable (run_op t o).

(** Number of rows stored for [u]. *)
Definition records_for (u : string) (t : Table) : nat :=
  length (filter (fun r => url r =? u) t).

End DatabaseManager.

(** ** Removal of markup: [re.sub(r'<[^>]+>', '', s)] *)

Module Re.

Definition lt_sign : ascii := "<"%char.
Definition gt_sign : ascii := ">"%char.

(** Position of the first [>] of [s]. *)
Fixpoint gt_index (s : string) : option nat :=
  match s with
  | EmptyString => None
  | String c r =>
      if Ascii.eqb c gt_sign then Some 0
      else match gt_index r with
           | Some n => Some (S n)
           | None => None
           end
  end.

(** [tag_len r] is the number of characters the pattern consumes after a
    [<] that is followed by [r]: a non-empty run without [>] (the greedy
    [[^>]+] stops at the first [>] or at the end) and the [>] itself.
    There is no match when [r] starts with [>] or holds none. *)
Definition tag_len (r : string) : option nat :=
  match gt_index r with
  | Some (S k) => Some (S (S k))
  | _ => None
  end.

(** The scan of [re.sub]: left to right, leftmost match first, matches
    do not overlap; [skip] characters are still to be dropped from the
    match in progress. *)
Fixpoint sub_scan (skip : nat) (s : string) : string :=
  match s with
  | EmptyString => EmptyString
  | String c r =>
      match skip with
      | S k => sub_scan k r
      | O =>
          if Ascii.eqb c lt_sign then
            match tag_len r with
            | Some n => sub_scan n r
            | None => String c (sub_scan 0 r)
            end
          else String c (sub_scan 0 r)
      end
  end.

Definition sub_tags (s : string) : string := sub_scan 0 s.

(** [re.search(r'<[^>]+>', s) is not None] *)
Fixpoint search_tag (s : string) : bool :=
  match s with
  | EmptyString => false
  | String c r =>
      (Ascii.eqb c lt_sign && match tag_len r with Some _ => true | None => false end)
      || search_tag r
  end.

(** The language of the pattern, stated on the text: [s] holds a [<], a
    non-empty run free of [>], and a [>]. *)
Definition has_markup (s : string) : Prop :=
  exists pre x post,
    s = pre ++ String lt_sign (x ++ String gt_sign post)
    /\ x <> EmptyString /\ contains gt_sign x = false.

End Re.

(** ** Configuration *)

Definition GLOBAL_CHANNEL_ID : Z := 1400070228666486837.

Definition WAIT_TIME_MINUTES : Z := 30.

(** One value of [NEWS_SOURCES]: [config.get("channel_id")] may be absent,
    [config["rss_url"]] is read unconditionally. *)
Record Config : Type := { channel_id : option Z; rss_url : string }.

Definition source (c : string) (id : Z) (u : string) : string * Config :=
  (c, {| channel_id := Some id; rss_url := u |}).

(** The dict [NEWS_SOURCES] in insertion order, the order of [.items()]. *)
Definition NEWS_SOURCES : list (string * Config) :=
  [ source "JP" 1385660657700966510 "https://www3.nhk.or.jp/nhkworld/en/news/list.xml";
    source "US" 1385660708506697959 "https://www.cbsnews.com/latest/rss/world";
    source "GB" 1385660728131846354 "https://feeds.bbci.co.uk/news/world/rss.xml";
    source "FR" 1385660688277700729 "https://www.france24.com/en/rss";
    source "DE" 1385660749266944040 "https://rss.dw.com/xml/rss-en-world";
    source "IT" 1385660782313996428 "https://www.ansa.it/sito/ansait_rss/english_news.xml";
    source "CA" 1385660814731776332 "https://www.cbc.ca/cmlink/rss-world";
    source "IN" 1385660837095804959 "https://timesofindia.indiatimes.com/rssfeeds/296589292.cms";
    source "CN" 1385660867231875173 "https://www.scmp.com/rss/318206/feed" ].

(** ** The outside world *)

(** A feed entry as [feedparser] hands it over: every field may be absent.
    [entry.get(k)] gives [None] for an absent field, [entry.k] raises
    [AttributeError]. *)
Record Entry : Type := {
  link : option string;
  title : option string;
  description : option string;
  entry_summary : option string
}.

(** The JSON body sent to the generation backend. *)
Record Payload : Type := { model : string; prompt : string; stream : bool }.

(** What [session.post] answers: a status and the outcome of
    [response.json()], a dict of text fields or an exception (a body that
    is not JSON, a [response] field that is not text). *)
Record Response : Type := {
  status : Z;
  json : result (list (string * string))
}.

(** External calls, as they are observed from outside the process. *)
Inductive Event : Type :=
| EvFetch (rss : string)
| EvPost (p : Payload)
| EvSend (channel : Z) (message : string)
| EvSleep (seconds : nat).

Record Env : Type := {
  (** [Client.get_channel(id)]: is the channel known to the client *)
  env_get_channel : nat -> Z -> bool;
  (** [feedparser.parse(url, agent=RSS_AGENT)], then [.entries] *)
  env_parse : nat -> string -> result (list Entry);
  (** [session.post(llm_api_url, json=payload)] *)
  env_post : nat -> Payload -> result Response;
  (** [channel.send(message)] *)
  env_send : nat -> Z -> string -> result unit
}.

(** The state of the process and of what it has done to the world. *)
Record World : Type := { db : Table; trace : list Event }.

(** The index of the next external call. *)
Definition now (w : World) : nat := length (trace w).

Definition emit (ev : Event) (w : World) : World :=
  {| db := db w; trace := (trace w ++ [ev])%list |}.

(** A method of [self.db] run by the bot. *)
Definition on_db {A} (c : M Table A) : M World A :=
  fun w =>
    let (r, t) := c (db w) in (r, {| db := t; trace := trace w |}).

(** An external call: the oracle is asked at the current index, the call
    is recorded, and its outcome is returned or raised. *)
Definition external {A} (ev : Event) (answer : nat -> result A) : M World A :=
  fun w => (answer (now w), emit ev w).

(** ** NewsBot *)

Module NewsBot.
Section Bot.

Variable env : Env.

Definition summary_instruction : string :=
  "Read the following news snippet. "
  ++ "1. Identify the language and translate it into English if needed. "
  ++ "2. Extract the key facts and output them as 'Key Points' in 3 bullet points or less. "
  ++ "Do not add any introductory text like 'Here is the summary'. Just the bullet points.:"
  ++ nl ++ nl.

Definition title_instruction : string :=
  "Translate to English and create a short, catchy headline (under 10 words) for this news:"
  ++ nl ++ nl.

Definition make_payload (system_instruction text : string) : Payload :=
  {| model := "mistral"; prompt := system_instruction ++ text; stream := false |}.

(** [query_llm(text, mode)].  The two branches on [mode] have no [else]:
    with any other mode the name [system_instruction] is unbound when the
    payload is built, outside the [try].  The message is the one of
    Python 3.11 and later; earlier interpreters word it differently.  Both
    callers pass one of the two modes. *)
Definition query_llm (text mode : string) : M World string :=
  system_instruction <-
    (if mode =? "summary" then ret summary_instruction
     else if mode =? "title" then ret title_instruction
     else raise (UnboundLocalError
                   "cannot access local variable 'system_instruction' where it is not associated with a value")) ;;
  let payload := make_payload system_instruction text in
  try_except
    (response <- external (EvPost payload) (fun t => env_post env t payload) ;;
     if (status response =? 200)%Z then
       data <- (fun w => (json response, w)) ;;
       ret (strip (dict_get data "response" ""))
     else ret ("Error: " ++ str_int (status response)))
    is_Exception
    (fun e => ret ("LLM Error: " ++ str_exn e)).

(** [get_feed(url)] run through [asyncio.to_thread], then [feed.entries] *)
Definition get_feed (u : string) : M World (list Entry) :=
  external (EvFetch u) (fun t => env_parse env t u).

(** [self.get_channel(id)], a lookup in the client's cache *)
Definition get_channel (id : Z) : M World bool :=
  fun w => (Ok (env_get_channel env (now w) id), w).

Definition send (id : Z) (message : string) : M World unit :=
  external (EvSend id message) (fun t => env_send env t id message).

Definition sleep (seconds : nat) : M World unit :=
  external (EvSleep seconds) (fun _ => Ok tt).

(** [entry.name] *)
Definition getattr (field : option string) (name : string) : M World string :=
  match field with
  | Some v => ret v
  | None => raise (AttributeError name)
  end.

(** The operand [entry.get(k)] of an [or]: taken when present and not
    empty. *)
Definition get_truthy (field : option string) : option string :=
  match field with
  | Some v => if truthy v then Some v else None
  | None => None
  end.

(** [entry.get('description') or entry.get('summary') or entry.title] *)
Definition extract_text (entry : Entry) : M World string :=
  match get_truthy (description entry) with
  | Some d => ret d
  | None =>
      match get_truthy (entry_summary entry) with
      | Some s => ret s
      | None => getattr (title entry) "title"
      end
  end.

(** [if raw_text and "<" in raw_text: raw_text = re.sub(...)] *)
Definition remove_tags (raw_text : string) : string :=
  if truthy raw_text && contains Re.lt_sign raw_text
  then Re.sub_tags raw_text
  else raw_text.

(** [f"**{title_en}**\n\n{key_points}\n\n{url}"] *)
Definition format_message (title_en key_points u : string) : string :=
  "**" ++ title_en ++ "**" ++ nl ++ nl ++ key_points ++ nl ++ nl ++ u.

(** [f"[{country}] {message}"] *)
Definition format_global (country message : string) : string :=
  "[" ++ country ++ "] " ++ message.

(** The body of [for entry in feed.entries[:3]], for the channel of the
    source found before the loop. *)
Definition process_entry (country : string) (channel : Z) (entry : Entry)
  : M World unit :=
  u <- getattr (link entry) "link" ;;
  posted <- on_db (DatabaseManager.is_posted u) ;;
  if posted then ret tt
  else
    raw_text <- extract_text entry ;;
    let raw_text := remove_tags raw_text in
    _title <- getattr (title entry) "title" ;;
    key_points <- query_llm raw_text "summary" ;;
    entry_title <- getattr (title entry) "title" ;;
    title_en <- query_llm entry_title "title" ;;
    let message := format_message title_en key_points u in
    send channel message ;;;
    global_ch <- get_channel GLOBAL_CHANNEL_ID ;;
    (if global_ch
     then send GLOBAL_CHANNEL_ID (format_global country message)
     else ret tt) ;;;
    on_db (DatabaseManager.add_article u key_points) ;;;
    sleep 3.

(** The statements of [process_rss] inside its [try]. *)
Definition process_rss_body (country : string) (config : Config)
  : M World unit :=
  match channel_id config with
  | None => ret tt
  | Some id =>
      if (id =? 0)%Z then ret tt
      else
        channel <- get_channel id ;;
        if negb channel then ret tt
        else
          entries <- get_feed (rss_url config) ;;
          match entries with
          | [] => ret tt
          | _ => for_each (firstn 3 entries) (process_entry country id)
          end
  end.

(** [process_rss]: the whole body under [except Exception], whose
    handler prints and returns. *)
Definition process_rss (country : string) (config : Config) : M World unit :=
  try_except (process_rss_body country config) is_Exception
    (fun _ => ret tt).

(** One run of [news_loop], over the given registry. *)
Definition news_loop (sources : list (string * Config)) : M World unit :=
  for_each sources (fun s => process_rss (fst s) (snd s)).

End Bot.
End NewsBot.

(** The bot at start-up: the table as [DatabaseManager.__init__] leaves
    it, nothing done yet. *)
Definition start (file : option Table) : World :=
  {| db := DatabaseManager.create_table file; trace := [] |}.

(** ** Notions used to state the properties *)

(** The backend did not answer with status 200, or the call raised. *)
Definition failed (answer : result Response) : bool :=
  match answer with
  | Ok response => negb (status response =? 200)%Z
  | Raise _ => true
  end.

(** The text [query_llm] returns for an answer of the backend. *)
Definition reply_text (answer : result Response) : string :=
  match answer with
  | Ok response =>
      if (status response =? 200)%Z then
        match json response with
        | Ok data => strip (dict_get data "response" "")
        | Raise e => "LLM Error: " ++ str_exn e
        end
      else "Error: " ++ str_int (status response)
  | Raise e => "LLM Error: " ++ str_exn e
  end.

(** The text taken from an entry whose title is [t]. *)
Definition body_text (entry : Entry) (t : string) : string :=
  match NewsBot.get_truthy (description entry) with
  | Some d => d
  | None =>
      match NewsBot.get_truthy (entry_summary entry) with
      | Some s => s
      | None => t
      end
  end.

Section Item.

Variables (env : Env) (entry : Entry) (u t : string) (w : World).

(** The two requests made for a new entry with link [u] and title [t],
    met in the world [w], and what [query_llm] returns for them. *)
Definition summary_request : Payload :=
  NewsBot.make_payload NewsBot.summary_instruction
    (NewsBot.remove_tags (body_text entry t)).

Definition title_request : Payload :=
  NewsBot.make_payload NewsBot.title_instruction t.

Definition key_points_at : string :=
  reply_text (env_post env (now w) summary_request).

Definition title_en_at : string :=
  reply_text (env_post env (now w + 1) title_request).

Definition message_at : string :=
  NewsBot.format_message title_en_at key_points_at u.

(** The world once both requests are made. *)
Definition enriched : World :=
  emit (EvPost title_request) (emit (EvPost summary_request) w).

(** The answers of Discord to the two deliveries, for the source
    [country] whose channel is [channel], and whether the client knows the
    shared channel when it is looked up. *)
Variables (country : string) (channel : Z).

Definition source_delivery : result unit :=
  env_send env (now w + 2) channel message_at.

Definition global_found : bool :=
  env_get_channel env (now w + 3) GLOBAL_CHANNEL_ID.

Definition global_delivery : result unit :=
  env_send env (now w + 3) GLOBAL_CHANNEL_ID
    (NewsBot.format_global country message_at).

(** The external calls made for the entry, in order. *)
Definition entry_events : list Event :=
  EvPost summary_request :: EvPost title_request
  :: EvSend channel message_at
  :: match source_delivery with
     | Raise _ => []
     | Ok _ =>
         if global_found then
           EvSend GLOBAL_CHANNEL_ID (NewsBot.format_global country message_at)
           :: match global_delivery with
              | Raise _ => []
              | Ok _ => [EvSleep 3]
              end
         else [EvSleep 3]
     end.

End Item.

(** [w] with one more row. *)
Definition record (u s : string) (w : World) : World :=
  {| db := (db w ++ [{| url := u; summary := s |}])%list; trace := trace w |}.

(** The deliveries among some events, in order. *)
Fixpoint sends (evs : list Event) : list (Z * string) :=
  match evs with
  | [] => []
  | EvSend id m :: evs' => (id, m) :: sends evs'
  | _ :: evs' => sends evs'
  end.

(** The requests to the generation backend among some events, in order. *)
Fixpoint posts (evs : list Event) : list Payload :=
  match evs with
  | [] => []
  | EvPost p :: evs' => p :: posts evs'
  | _ :: evs' => posts evs'
  end.

(** The events of [w'] that come after those of [w]. *)
Definition since (w w' : World) : list Event :=
  skipn (length (trace w)) (trace w').

(** Every URL recorded in [w] is recorded in [w']. *)
Definition keeps_posted (w w' : World) : Prop :=
  forall u, DatabaseManager.has_url u (db w) = true ->
            DatabaseManager.has_url u (db w') = true.

(** The environment whose feeds are cut to their first [n] entries. *)
Definition truncate_feeds (n : nat) (env : Env) : Env :=
  {| env_get_channel := env_get_channel env;
     env_parse := fun t u =>
       match env_parse env t u with
       | Ok entries => Ok (firstn n entries)
       | Raise e => Raise e
       end;
     env_post := env_post env;
     env_send := env_send env |}.

Definition links (entries : list Entry) : list (option string) :=
  map link entries.

(** ** Scenarios *)

Module Scenario.

Definition chan_X : Z := 7.

Definition source_X : string * Config := source "X" chan_X "F".

Definition item (u t d : string) : Entry :=
  {| link := Some u; title := Some t; description := Some d;
     entry_summary := None |}.

Definition item1 : Entry := item "u1" "T" "d1".

Definition item_markup : Entry := item "u2" "<b>T</b>" "<p>d</p>".

Definition answer (s : string) : result Response :=
  Ok {| status := 200; json := Ok [("response", s)] |}.

(** A backend that gives "S1" for a summary and "H1" for a headline. *)
Definition enrich (p : Payload) : result Response :=
  if prefix NewsBot.title_instruction (prompt p)
  then answer "H1" else answer "S1".

(** Everything works; the feed holds [entries] at every poll. *)
Definition healthy (entries : list Entry) : Env :=
  {| env_get_channel := fun _ _ => true;
     env_parse := fun _ _ => Ok entries;
     env_post := fun _ p => enrich p;
     env_send := fun _ _ _ => Ok tt |}.

(** The generation backend answers 500 to every request. *)
Definition backend_down (entries : list Entry) : Env :=
  {| env_get_channel := fun _ _ => true;
     env_parse := fun _ _ => Ok entries;
     env_post := fun _ _ => Ok {| status := 500; json := Raise (Exception "no body") |};
     env_send := fun _ _ _ => Ok tt |}.

(** Discord refuses the messages for [chan_X] during the first poll
    (external calls 0 to 3) and accepts everything afterwards. *)
Definition delivery_down_once (entries : list Entry) : Env :=
  {| env_get_channel := fun _ _ => true;
     env_parse := fun _ _ => Ok entries;
     env_post := fun _ p => enrich p;
     env_send := fun n id _ =>
       if (n <? 4)%nat && (id =? chan_X)%Z
       then Raise (Exception "403 Forbidden") else Ok tt |}.

(** Ten new items. *)
Definition feed10 : list Entry :=
  map (fun n => item ("u" ++ n) ("T" ++ n) ("d" ++ n))
    ["0"; "1"; "2"; "3"; "4"; "5"; "6"; "7"; "8"; "9"].

Definition fresh : World := start None.

(** The world in which the first entry of the first poll is met: the feed
    of the only source has been fetched. *)
Definition fetched : World := emit (EvFetch "F") fresh.

(** One cycle over the registry that holds [source_X] alone. *)
Definition poll (env : Env) (w : World) : World :=
  snd (NewsBot.news_loop env [source_X] w).

Definition failing : Env := backend_down [item1].

Definition refusing : Env := delivery_down_once [item1].

Definition message1 : string := NewsBot.format_message "H1" "S1" "u1".

(** Ten new items while Discord refuses the first message. *)
Definition refusing10 : Env := delivery_down_once feed10.

(** Two sources, the feed of the first cannot be fetched. *)
Definition source_A : string * Config := source "A" 8 "FA".

Definition source_B : string * Config := source "B" 9 "FB".

Definition feed_A_down : Env :=
  {| env_get_channel := fun _ _ => true;
     env_parse := fun _ u =>
       if u =? "FA" then Raise (Exception "timed out") else Ok [item1];
     env_post := fun _ p => enrich p;
     env_send := fun _ _ _ => Ok tt |}.

End Scenario.

(** ** More notions: the remaining external calls, the task loop *)

(** The feeds fetched among some events, in order. *)
Fixpoint fetches (evs : list Event) : list string :=
  match evs with
  | [] => []
  | EvFetch u :: evs' => u :: fetches evs'
  | _ :: evs' => fetches evs'
  end.

(** The pauses among some events, in order. *)
Fixpoint sleeps (evs : list Event) : list nat :=
  match evs with
  | [] => []
  | EvSleep n :: evs' => n :: sleeps evs'
  | _ :: evs' => sleeps evs'
  end.

(** The test [if not channel_id: return] lets the source through. *)
Definition configured (config : Config) : bool :=
  match channel_id config with
  | Some id => negb (id =? 0)%Z
  | None => false
  end.

(** [n] iterations of the task [news_loop]: an exception that leaves an
    iteration stops the task. *)
Fixpoint run (env : Env) (sources : list (string * Config)) (n : nat)
  : M World unit :=
  match n with
  | O => ret tt
  | S k => NewsBot.news_loop env sources ;;; run env sources k
  end.

(** From [w] to [w']: the feeds [fs] are fetched, at most [n] entries are
    taken through the loop (two requests and two deliveries each at most),
    the table gets rows at its end, at most one per entry, and there is
    one pause of three seconds per row. *)
Definition within (fs : list string) (n : nat) (w w' : World) : Prop :=
  exists d rows,
    trace w' = (trace w ++ d)%list
    /\ db w' = (db w ++ rows)%list
    /\ fetches d = fs
    /\ length (posts d) <= 2 * n
    /\ length (sends d) <= 2 * n
    /\ sleeps d = repeat 3 (length rows)
    /\ length rows <= n.

(** The summary of a row is the text [query_llm] returned for a request
    for a summary that is among the calls made in [w]: the request is the
    call number [n], and the text is made of the answer given to it. *)
Definition replied (env : Env) (w : World) (r : Row) : Prop :=
  exists n text,
    nth_error (trace w) n
    = Some (EvPost (NewsBot.make_payload NewsBot.summary_instruction text))
    /\ summary r
       = reply_text
           (env_post env n
              (NewsBot.make_payload NewsBot.summary_instruction text)).

(** The first and the last character of a text. *)
Definition first_char (s : string) : option ascii :=
  match s with
  | EmptyString => None
  | String c _ => Some c
  end.

Fixpoint last_char (s : string) : option ascii :=
  match s with
  | EmptyString => None
  | String c EmptyString => Some c
  | String _ r => last_char r
  end.

(** ** The connection to the database file

    The bot keeps one connection.  [sqlite3] opens a transaction before an
    [INSERT]; the rows inserted in it are seen by the statements of the
    connection, are written to the file by [commit], and are lost when
    the process ends before the commit. *)

Module Connection.

(** The rows the file holds, and the rows of the open transaction. *)
Record t : Type := { disk : Table; pending : Table }.

(** What the statements of the connection see. *)
Definition rows (c : t) : Table := (disk c ++ pending c)%list.

(** [sqlite3.connect(db_name)] on a file whose table holds [file] *)
Definition connect (file : Table) : t := {| disk := file; pending := [] |}.

(** [self.conn.commit()] *)
Definition commit : M t unit :=
  fun c => (Ok tt, {| disk := rows c; pending := [] |}).

(** [self.cursor.execute('INSERT INTO posted_articles ...')] *)
Definition execute_insert (u s : string) : M t unit :=
  fun c =>
    if DatabaseManager.has_url u (rows c)
    then (Raise (IntegrityError "UNIQUE constraint failed: posted_articles.url"), c)
    else (Ok tt, {| disk := disk c;
                    pending := (pending c ++ [{| url := u; summary := s |}])%list |}).

(** [add_article]: the insert, then the commit, both inside the [try] *)
Definition add_article (u s : string) : M t unit :=
  try_except (execute_insert u s ;;; commit) is_IntegrityError
    (fun _ => ret tt).

Definition is_posted (u : string) : M t bool :=
  fun c => (Ok (DatabaseManager.has_url u (rows c)), c).

(** [create_table] on a file that holds the table: the two statements
    change no row, then the commit. *)
Definition create_table : M t unit := commit.

Definition run_op (c : t) (o : DatabaseManager.op) : t :=
  match o with
  | DatabaseManager.OpCreateTable => snd (create_table c)
  | DatabaseManager.OpIsPosted u => snd (is_posted u c)
  | DatabaseManager.OpAddArticle u s => snd (add_article u s c)
  end.

(** The process ends: the file keeps what was committed. *)
Definition file_left (c : t) : Table := disk c.

End Connection.

(** ** The analysis script [analyze.py]

    The script reads the summaries the bot has stored, asks the embedding
    model for one vector per summary and hands the vectors to t-SNE and
    K-Means.  Vectors, coordinates and cluster labels are arrays of
    floating-point numbers and stay abstract; the numeric routines are
    oracles.  The calls of [matplotlib] that only decorate the figure are
    left out, as is the console output. *)

Module Analyze.

Definition newline : ascii := ascii_of_nat 10.

(** [s.replace(old, new)] for a one-character [old] *)
Fixpoint replace (old : ascii) (new s : string) : string :=
  match s with
  | EmptyString => EmptyString
  | String c r =>
      if Ascii.eqb c old then new ++ replace old new r
      else String c (replace old new r)
  end.

(** [s[:n]] *)
Fixpoint take (n : nat) (s : string) : string :=
  match n, s with
  | S k, String c r => String c (take k r)
  | _, _ => EmptyString
  end.

(** The column [summary] of [posted_articles] as the script finds it, one
    element per row in the order of the table; [None] is NULL, which
    [create_table] leaves in the rows of a table it has migrated. *)
Definition Column : Type := list (option string).

(** The column of a table written by the bot. *)
Definition column_of (t : Table) : Column := map (fun r => Some (summary r)) t.

(** [WHERE summary IS NOT NULL] *)
Fixpoint non_null (column : Column) : list string :=
  match column with
  | [] => []
  | Some s :: column' => s :: non_null column'
  | None :: column' => non_null column'
  end.

(** [get_data()]: [SELECT summary FROM posted_articles WHERE summary IS
    NOT NULL].  On a database file without the table [read_sql] raises
    [DatabaseError]. *)
Definition get_data (file : option Column) : result (list string) :=
  match file with
  | Some column => Ok (non_null column)
  | None =>
      Raise (Exception
               ("Execution failed on sql "
                ++ "'SELECT summary FROM posted_articles WHERE summary IS NOT NULL'"
                ++ ": no such table: posted_articles"))
  end.

(** [min(30, len(df) - 1)] *)
Definition perplexity (len_df : nat) : Z := Z.min 30 (Z.of_nat len_df - 1).

Definition num_clusters : Z := 3.

(** [txt[:15].replace('\n', '') + "..."] *)
Definition label (txt : string) : string :=
  replace newline "" (take 15 txt) ++ "...".

(** [enumerate(xs)] *)
Definition enumerate {A} (xs : list A) : list (nat * A) :=
  combine (seq 0 (length xs)) xs.

Section Script.

Variables (vector coords clusters : Type).

(** The calls the script makes to the world around it. *)
Inductive Call : Type :=
| Embed (model prompt : string)
| TSNE (perp : Z) (vectors : list vector)
| KMeans (n_clusters : Z) (vectors : list vector)
| Scatter (xy : coords) (c : clusters)
| Annotate (text : string) (i : nat)
| Savefig (file : string)
| Show.

Record Lab : Type := {
  (** the database file [posted_news.db] *)
  lab_file : option Column;
  (** [len(v)], the number of components of an embedding *)
  lab_len : vector -> nat;
  (** [ollama.embeddings(model=..., prompt=...)['embedding']] *)
  lab_embeddings : nat -> string -> string -> result vector;
  (** [TSNE(perplexity=...).fit_transform(vectors)] *)
  lab_fit_transform : nat -> Z -> list vector -> result coords;
  (** [KMeans(n_clusters=...).fit_predict(vectors)] *)
  lab_fit_predict : nat -> Z -> list vector -> result clusters
}.

Variable lab : Lab.

(** A call: the oracle is asked at the index of the call, the call is
    recorded, its outcome is returned or raised. *)
Definition call {A} (c : Call) (answer : nat -> result A) : M (list Call) A :=
  fun tr => (answer (length tr), (tr ++ [c])%list).

(** [get_embeddings(texts)]; [done] holds the vectors appended so far. *)
Fixpoint embed_all (texts : list string) (done : list vector)
  : M (list Call) (list vector) :=
  match texts with
  | [] => ret done
  | text :: texts' =>
      let clean_text := replace newline " " text in
      v <- call (Embed "mistral" clean_text)
             (fun t => lab_embeddings lab t "mistral" clean_text) ;;
      embed_all texts' (done ++ [v])%list
  end.

(** The vectors have one length. *)
Definition same_length (vectors : list vector) : bool :=
  match vectors with
  | [] => true
  | v :: vectors' =>
      forallb (fun v' => (lab_len lab v' =? lab_len lab v)%nat) vectors'
  end.

(** [np.array(vectors)]: NumPy (1.24 and later) refuses a list of vectors
    of different lengths with [ValueError]. *)
Definition np_array (vectors : list vector) : M (list Call) (list vector) :=
  if same_length vectors then ret vectors
  else
    raise (Exception
             ("setting an array element with a sequence. The requested array "
              ++ "has an inhomogeneous shape after 1 dimensions. The detected "
              ++ "shape was (" ++ str_int (Z.of_nat (length vectors))
              ++ ",) + inhomogeneous part.")).

Definition get_embeddings (texts : list string) : M (list Call) (list vector) :=
  vectors <- embed_all texts [] ;;
  np_array vectors.

Definition main : M (list Call) unit :=
  df <- (fun tr => (get_data (lab_file lab), tr)) ;;
  if (length df <? 5)%nat then ret tt
  else
    vectors <- get_embeddings df ;;
    let perp := perplexity (length df) in
    xy <- call (TSNE perp vectors)
            (fun t => lab_fit_transform lab t perp vectors) ;;
    c <- call (KMeans num_clusters vectors)
           (fun t => lab_fit_predict lab t num_clusters vectors) ;;
    call (Scatter xy c) (fun _ => Ok tt) ;;;
    for_each (enumerate df)
      (fun it => call (Annotate (label (snd it)) (fst it)) (fun _ => Ok tt)) ;;;
    call (Savefig "news_map.png") (fun _ => Ok tt) ;;;
    call Show (fun _ => Ok tt).

End Script.

Arguments lab_file {vector coords clusters} l.
Arguments lab_len {vector coords clusters} l _.
Arguments lab_embeddings {vector coords clusters} l _ _ _.
Arguments lab_fit_transform {vector coords clusters} l _ _ _.
Arguments lab_fit_predict {vector coords clusters} l _ _ _.
Arguments call {vector coords clusters A} c answer _.
Arguments embed_all {vector coords clusters} lab texts done _.
Arguments same_length {vector coords clusters} lab vectors.
Arguments np_array {vector coords clusters} lab vectors _.
Arguments get_embeddings {vector coords clusters} lab texts _.
Arguments main {vector coords clusters} lab _.
Arguments Embed {vector coords clusters} model prompt.
Arguments TSNE {vector coords clusters} perp vectors.
Arguments KMeans {vector coords clusters} n_clusters vectors.
Arguments Scatter {vector coords clusters} xy c.
Arguments Annotate {vector coords clusters} text i.
Arguments Savefig {vector coords clusters} file.
Arguments Show {vector coords clusters}.

(** The request made for one text, and the text written for one row of
    the frame. *)
Definition request {vector coords clusters} (s : string)
  : Call vector coords clusters :=
  Embed "mistral" (replace newline " " s).

Definition annotate {vector coords clusters} (it : nat * string)
  : Call vector coords clusters :=
  Annotate (label (snd it)) (fst it).

(** The requests for an embedding among some calls, in order. *)
Fixpoint prompts {vector coords clusters} (cs : list (Call vector coords clusters))
  : list (string * string) :=
  match cs with
  | [] => []
  | Embed m p :: cs' => (m, p) :: prompts cs'
  | _ :: cs' => prompts cs'
  end.

(** The texts written on the figure among some calls, in order. *)
Fixpoint annotations {vector coords clusters} (cs : list (Call vector coords clusters))
  : list (nat * string) :=
  match cs with
  | [] => []
  | Annotate l i :: cs' => (i, l) :: annotations cs'
  | _ :: cs' => annotations cs'
  end.

End Analyze.

(** * Properties *)

(** ** The store *)

Module StoreFacts.
Import DatabaseManager.

Lemma has_url_app u t1 t2 :
  has_url u (t1 ++ t2)%list = has_url u t1 || has_url u t2.
Proof. unfold has_url. apply existsb_app. Qed.

Lemma has_url_In u t : has_url u t = true <-> In u (map url t).
Proof.
  unfold has_url. rewrite existsb_exists, in_map_iff. split.
  - intros (r & Hin & Heq). apply String.eqb_eq in Heq. now exists r.
  - intros (r & Heq & Hin). exists r. split; [assumption|].
    now apply String.eqb_eq.
Qed.

(** What [add_article] does, in one equation. *)
Lemma add_article_eq u s t :
  add_article u s t =
    (Ok tt, if has_url u t then t else (t ++ [{| url := u; summary := s |}])%list).
Proof.
  unfold add_article, try_except, execute_insert.
  destruct (has_url u t); reflexivity.
Qed.

Lemma add_article_posted u s t : has_url u (snd (add_article u s t)) = true.
Proof.
  rewrite add_article_eq. simpl. destruct (has_url u t) eqn:E; [assumption|].
  rewrite has_url_app. simpl. rewrite String.eqb_refl. apply orb_true_r.
Qed.

Lemma add_article_keeps u s v t :
  has_url v t = true -> has_url v (snd (add_article u s t)) = true.
Proof.
  intros H. rewrite add_article_eq. simpl.
  destruct (has_url u t); [assumption|].
  rewrite has_url_app, H. reflexivity.
Qed.

Lemma add_article_length u s t :
  length (snd (add_article u s t)) <= S (length t).
Proof.
  rewrite add_article_eq. simpl. destruct (has_url u t).
  - lia.
  - rewrite length_app. simpl. lia.
Qed.

Lemma run_op_NoDup t o : NoDup (map url t) -> NoDup (map url (run_op t o)).
Proof.
  intros H. destruct o as [|u|u s]; simpl; try assumption.
  rewrite add_article_eq. simpl. destruct (has_url u t) eqn:E; [assumption|].
  rewrite map_app. simpl. apply NoDup_app; [assumption| |].
  - constructor; [intros []|constructor].
  - intros a Ha [<-|[]]. apply has_url_In in Ha. congruence.
Qed.

Lemma reachable_NoDup t : reachable t -> NoDup (map url t).
Proof.
  induction 1 as [|t o _ IH].
  - constructor.
  - now apply run_op_NoDup.
Qed.

Lemma records_for_absent u t : has_url u t = false -> records_for u t = 0.
Proof.
  unfold records_for, has_url. induction t as [|r t IH]; simpl; [reflexivity|].
  destruct (url r =? u); simpl; [discriminate|exact IH].
Qed.

Lemma records_for_NoDup u t : NoDup (map url t) -> records_for u t <= 1.
Proof.
  induction t as [|r t IH]; simpl; intros H; [unfold records_for; simpl; lia|].
  inversion H as [|x l Hnotin Hnd]; subst.
  unfold records_for in *. simpl. destruct (url r =? u) eqn:E; simpl.
  - apply String.eqb_eq in E. subst u.
    assert (Z0 : has_url (url r) t = false).
    { destruct (has_url (url r) t) eqn:F; [|reflexivity].
      apply has_url_In in F. contradiction. }
    apply records_for_absent in Z0. unfold records_for in Z0. lia.
  - now apply IH.
Qed.

Lemma records_for_present u t :
  has_url u t = true -> 1 <= records_for u t.
Proof.
  unfold records_for, has_url. induction t as [|r t IH]; simpl; [discriminate|].
  destruct (url r =? u); simpl; [lia|exact IH].
Qed.

End StoreFacts.

(** C4. [add_article] never raises on a duplicate key: on a table reachable
    from a fresh database, two calls for the same URL both return, the
    second leaves the table as the first left it, and the URL has exactly
    one row; every reachable table has pairwise distinct URLs, so at most
    one row for any URL. *)
Theorem add_article_idempotent :
  forall (t : Table) (u s s' : string),
    DatabaseManager.reachable t ->
    (exists t1,
        DatabaseManager.add_article u s t = (Ok tt, t1)
        /\ DatabaseManager.add_article u s' t1 = (Ok tt, t1)
        /\ DatabaseManager.records_for u t1 = 1)
    /\ NoDup (map url t)
    /\ (forall v, DatabaseManager.records_for v t <= 1).
Proof.
  intros t u s s' Hreach.
  pose proof (StoreFacts.reachable_NoDup t Hreach) as Hnd.
  split; [|split; [exact Hnd|intros v; now apply StoreFacts.records_for_NoDup]].
  exists (snd (DatabaseManager.add_article u s t)).
  pose proof (StoreFacts.add_article_posted u s t) as Hposted.
  split; [|split].
  - rewrite StoreFacts.add_article_eq. reflexivity.
  - rewrite (StoreFacts.add_article_eq u s'), Hposted. reflexivity.
  - apply Nat.le_antisymm.
    + apply StoreFacts.records_for_NoDup.
      apply (StoreFacts.reachable_NoDup _
               (DatabaseManager.reach_step t (DatabaseManager.OpAddArticle u s) Hreach)).
    + now apply StoreFacts.records_for_present.
Qed.

Lemma add_article_idempotent_witness :
  exists t1,
    DatabaseManager.add_article "u1" "S1" [] = (Ok tt, t1)
    /\ DatabaseManager.add_article "u1" "S1" t1 = (Ok tt, t1)
    /\ DatabaseManager.records_for "u1" t1 = 1.
Proof.
  exact (proj1 (add_article_idempotent [] "u1" "S1" "S1" DatabaseManager.reach_init)).
Defined.

(** ** Removal of markup *)

Module ReFacts.
Import Re.

Lemma gt_index_None s : gt_index s = None <-> contains gt_sign s = false.
Proof.
  induction s as [|c r IH]; simpl; [tauto|].
  destruct (Ascii.eqb c gt_sign); simpl; [split; discriminate|].
  destruct (gt_index r); [|tauto].
  split; [discriminate|]. intros H. apply IH in H. discriminate.
Qed.

(** The characters kept by the scan are characters of the text. *)
Lemma sub_scan_contains c n s :
  contains c (sub_scan n s) = true -> contains c s = true.
Proof.
  revert n. induction s as [|d r IH]; intros n; simpl; [trivial|].
  destruct n as [|k].
  - destruct (Ascii.eqb d lt_sign).
    + destruct (tag_len r) as [m|]; simpl.
      * intros H. apply IH in H. rewrite H. apply orb_true_r.
      * destruct (Ascii.eqb d c); simpl; [trivial|apply IH].
    + simpl. destruct (Ascii.eqb d c); simpl; [trivial|apply IH].
  - intros H. apply IH in H. rewrite H. apply orb_true_r.
Qed.

(** No match can start at a [<] that the scan has kept. *)
Lemma tag_len_kept r : tag_len r = None -> tag_len (sub_scan 0 r) = None.
Proof.
  unfold tag_len. destruct (gt_index r) as [[|k]|] eqn:E; try discriminate; intros _.
  - destruct r as [|c r']; simpl in *; [reflexivity|].
    destruct (Ascii.eqb c gt_sign) eqn:Ec.
    + apply Ascii.eqb_eq in Ec. subst c. simpl. reflexivity.
    + destruct (gt_index r'); discriminate.
  - apply gt_index_None in E.
    destruct (gt_index (sub_scan 0 r)) as [n|] eqn:F; [|reflexivity].
    assert (G : contains gt_sign (sub_scan 0 r) = true).
    { destruct (contains gt_sign (sub_scan 0 r)) eqn:G; [reflexivity|].
      apply gt_index_None in G. congruence. }
    apply sub_scan_contains in G. congruence.
Qed.

Lemma search_tag_sub_scan n s : search_tag (sub_scan n s) = false.
Proof.
  revert n. induction s as [|c r IH]; intros n; simpl; [reflexivity|].
  destruct n as [|k]; [|apply IH].
  destruct (Ascii.eqb c lt_sign) eqn:Ec.
  - destruct (tag_len r) as [m|] eqn:Et; [apply IH|].
    simpl. rewrite Ec, (tag_len_kept _ Et), IH. reflexivity.
  - simpl. rewrite Ec, IH. reflexivity.
Qed.

Lemma gt_index_app x post :
  contains gt_sign x = false ->
  gt_index (x ++ String gt_sign post) = Some (String.length x).
Proof.
  induction x as [|c x IH]; simpl; intros H.
  - reflexivity.
  - apply orb_false_iff in H. destruct H as [Hc Hx].
    rewrite Hc, (IH Hx). reflexivity.
Qed.

Lemma gt_index_split s n :
  gt_index s = Some n ->
  exists x post,
    s = x ++ String gt_sign post /\ contains gt_sign x = false
    /\ String.length x = n.
Proof.
  revert n. induction s as [|c r IH]; simpl; intros n H; [discriminate|].
  destruct (Ascii.eqb c gt_sign) eqn:Ec.
  - apply Ascii.eqb_eq in Ec. subst c. injection H as <-.
    exists EmptyString, r. repeat split.
  - destruct (gt_index r) as [m|]; [|discriminate]. injection H as <-.
    destruct (IH m eq_refl) as (x & post & -> & Hx & Hlen).
    exists (String c x), post. simpl. rewrite Ec, Hx, Hlen. repeat split.
Qed.

(** [search_tag] decides the presence of markup. *)
Lemma search_tag_spec s : search_tag s = true <-> has_markup s.
Proof.
  split.
  - induction s as [|c r IH]; simpl; [discriminate|].
    intros H. apply orb_true_iff in H. destruct H as [H|H].
    + apply andb_true_iff in H. destruct H as [Hc Ht].
      apply Ascii.eqb_eq in Hc. subst c. unfold tag_len in Ht.
      destruct (gt_index r) as [[|k]|] eqn:E; try discriminate.
      destruct (gt_index_split _ _ E) as (x & post & -> & Hx & Hlen).
      exists EmptyString, x, post. repeat split; [|assumption].
      intros ->. discriminate.
    + destruct (IH H) as (pre & x & post & -> & Hne & Hx).
      exists (String c pre), x, post. repeat split; assumption.
  - intros (pre & x & post & -> & Hne & Hx).
    induction pre as [|c pre IH]; cbn [append search_tag].
    + rewrite Ascii.eqb_refl. unfold tag_len. rewrite (gt_index_app _ _ Hx).
      destruct x; [congruence|reflexivity].
    + rewrite IH. apply orb_true_r.
Qed.

(** What [re.sub] returns holds no markup. *)
Lemma sub_tags_clean s : ~ has_markup (sub_tags s).
Proof.
  intros H. apply search_tag_spec in H. unfold sub_tags in H.
  rewrite search_tag_sub_scan in H. discriminate.
Qed.

(** A text without [<] is left as it is, so the test that guards the call
    of [re.sub] does not change the outcome. *)
Lemma sub_scan_no_lt s : contains lt_sign s = false -> sub_scan 0 s = s.
Proof.
  induction s as [|c r IH]; simpl; [reflexivity|]. intros H.
  apply orb_false_iff in H. destruct H as [Hc Hr].
  rewrite Hc, (IH Hr). reflexivity.
Qed.

Lemma remove_tags_sub_tags s : NewsBot.remove_tags s = sub_tags s.
Proof.
  unfold NewsBot.remove_tags, sub_tags.
  destruct s as [|c r]; [reflexivity|].
  cbn [truthy andb].
  destruct (contains lt_sign (String c r)) eqn:E; [reflexivity|].
  symmetry. now apply sub_scan_no_lt.
Qed.

Lemma remove_tags_clean s : ~ has_markup (NewsBot.remove_tags s).
Proof. rewrite remove_tags_sub_tags. apply sub_tags_clean. Qed.

(** The scan drops a whole match and goes on after it. *)
Lemma sub_scan_skip x c rest :
  sub_scan (S (String.length x)) (x ++ String c rest) = sub_scan 0 rest.
Proof.
  induction x as [|d x IH]; cbn [append String.length sub_scan];
    [reflexivity|exact IH].
Qed.

Lemma sub_tags_match x rest :
  x <> EmptyString -> contains gt_sign x = false ->
  sub_tags (String lt_sign (x ++ String gt_sign rest)) = sub_tags rest.
Proof.
  intros Hne Hx. unfold sub_tags. cbn [sub_scan].
  rewrite Ascii.eqb_refl. unfold tag_len. rewrite (gt_index_app _ _ Hx).
  destruct x as [|d x]; [congruence|].
  change (S (S (String.length x))) with (S (String.length (String d x))).
  apply sub_scan_skip.
Qed.

Lemma sub_tags_other c r :
  c <> lt_sign -> sub_tags (String c r) = String c (sub_tags r).
Proof.
  intros H. unfold sub_tags. cbn [sub_scan].
  apply Ascii.eqb_neq in H. rewrite H. reflexivity.
Qed.

End ReFacts.

(** ** The pipeline *)

Module BotFacts.
Import NewsBot.

Lemma bind_Ok {S A B} (c : M S A) (k : A -> M S B) s a s' :
  c s = (Ok a, s') -> bind c k s = k a s'.
Proof. unfold bind. now intros ->. Qed.

Lemma bind_Raise {S A B} (c : M S A) (k : A -> M S B) s e s' :
  c s = (Raise e, s') -> bind c k s = (Raise e, s').
Proof. unfold bind. now intros ->. Qed.

Lemma now_emit ev w : now (emit ev w) = now w + 1.
Proof. unfold now, emit. simpl. rewrite length_app. reflexivity. Qed.

Lemma db_emit ev w : db (emit ev w) = db w.
Proof. reflexivity. Qed.

Lemma posts_app a b : posts (a ++ b)%list = (posts a ++ posts b)%list.
Proof.
  induction a as [|e a IH]; [reflexivity|].
  destruct e; simpl; rewrite IH; reflexivity.
Qed.

Lemma sends_app a b : sends (a ++ b)%list = (sends a ++ sends b)%list.
Proof.
  induction a as [|e a IH]; [reflexivity|].
  destruct e; simpl; rewrite IH; reflexivity.
Qed.

Lemma fetches_app a b : fetches (a ++ b)%list = (fetches a ++ fetches b)%list.
Proof.
  induction a as [|e a IH]; [reflexivity|].
  destruct e; simpl; rewrite IH; reflexivity.
Qed.

Lemma sleeps_app a b : sleeps (a ++ b)%list = (sleeps a ++ sleeps b)%list.
Proof.
  induction a as [|e a IH]; [reflexivity|].
  destruct e; simpl; rewrite IH; reflexivity.
Qed.

Section Facts.

Variable env : Env.

(** [query_llm] in its two modes: one request, and always a text back. *)
Lemma query_llm_request instruction text w :
  try_except
    (response <- external (EvPost (make_payload instruction text))
                   (fun t => env_post env t (make_payload instruction text)) ;;
     if (status response =? 200)%Z then
       data <- (fun w => (json response, w)) ;;
       ret (strip (dict_get data "response" ""))
     else ret ("Error: " ++ str_int (status response)))
    is_Exception
    (fun e => ret ("LLM Error: " ++ str_exn e)) w
  = (Ok (reply_text (env_post env (now w) (make_payload instruction text))),
     emit (EvPost (make_payload instruction text)) w).
Proof.
  unfold try_except, bind, external, ret, reply_text, is_Exception.
  destruct (env_post env (now w) (make_payload instruction text))
    as [response|e]; [|reflexivity].
  destruct (status response =? 200)%Z; [|reflexivity].
  destruct (json response); reflexivity.
Qed.

Lemma query_llm_summary text w :
  query_llm env text "summary" w
  = (Ok (reply_text (env_post env (now w) (make_payload summary_instruction text))),
     emit (EvPost (make_payload summary_instruction text)) w).
Proof.
  unfold query_llm. rewrite String.eqb_refl.
  erewrite bind_Ok by reflexivity. apply query_llm_request.
Qed.

Lemma query_llm_title text w :
  query_llm env text "title" w
  = (Ok (reply_text (env_post env (now w) (make_payload title_instruction text))),
     emit (EvPost (make_payload title_instruction text)) w).
Proof.
  unfold query_llm. change ("title" =? "summary") with false.
  rewrite String.eqb_refl.
  erewrite bind_Ok by reflexivity. apply query_llm_request.
Qed.

Lemma query_llm_other text mode w :
  mode <> "summary" -> mode <> "title" ->
  query_llm env text mode w
  = (Raise (UnboundLocalError
              "cannot access local variable 'system_instruction' where it is not associated with a value"),
     w).
Proof.
  intros H1 H2. unfold query_llm.
  apply String.eqb_neq in H1, H2. rewrite H1, H2. reflexivity.
Qed.

Lemma extract_text_eq entry t w :
  title entry = Some t -> extract_text entry w = (Ok (body_text entry t), w).
Proof.
  intros Ht. unfold extract_text, body_text. rewrite Ht.
  destruct (get_truthy (description entry)); [reflexivity|].
  destruct (get_truthy (entry_summary entry)); reflexivity.
Qed.

(** An entry whose link is recorded: [continue]. *)
Lemma process_entry_posted country channel entry u w :
  link entry = Some u ->
  DatabaseManager.has_url u (db w) = true ->
  process_entry env country channel entry w = (Ok tt, w).
Proof.
  intros Hl Hp. unfold process_entry. rewrite Hl.
  erewrite bind_Ok by reflexivity.
  erewrite bind_Ok
    by (unfold on_db, DatabaseManager.is_posted; rewrite Hp; reflexivity).
  destruct w; reflexivity.
Qed.

(** An entry without a link: the attribute read raises. *)
Lemma process_entry_no_link country channel entry w :
  link entry = None ->
  process_entry env country channel entry w = (Raise (AttributeError "link"), w).
Proof. intros Hl. unfold process_entry. rewrite Hl. reflexivity. Qed.

(** A new entry with a link and a title, step by step. *)
Lemma process_entry_new country channel entry u t w :
  link entry = Some u -> title entry = Some t ->
  DatabaseManager.has_url u (db w) = false ->
  let k := key_points_at env entry t w in
  let message := message_at env entry u t w in
  let w2 := enriched entry t w in
  let w3 := emit (EvSend channel message) w2 in
  let w4 := emit (EvSend GLOBAL_CHANNEL_ID (format_global country message)) w3 in
  process_entry env country channel entry w =
    match env_send env (now w + 2) channel message with
    | Raise ex => (Raise ex, w3)
    | Ok _ =>
        if env_get_channel env (now w + 3) GLOBAL_CHANNEL_ID then
          match env_send env (now w + 3) GLOBAL_CHANNEL_ID
                  (format_global country message) with
          | Raise ex => (Raise ex, w4)
          | Ok _ => (Ok tt, emit (EvSleep 3) (record u k w4))
          end
        else (Ok tt, emit (EvSleep 3) (record u k w3))
    end.
Proof.
  intros Hl Ht Hp k message w2 w3 w4. unfold process_entry.
  rewrite Hl, Ht.
  erewrite bind_Ok by reflexivity.
  erewrite bind_Ok
    by (unfold on_db, DatabaseManager.is_posted; rewrite Hp; reflexivity).
  cbv iota.
  erewrite bind_Ok by (apply extract_text_eq; exact Ht).
  erewrite bind_Ok by reflexivity.
  erewrite bind_Ok by apply query_llm_summary.
  erewrite bind_Ok by reflexivity.
  erewrite bind_Ok by apply query_llm_title.
  assert (Ew : {| db := db w; trace := trace w |} = w) by (destruct w; reflexivity).
  rewrite Ew, now_emit.
  fold (summary_request entry t). fold (title_request t).
  fold (key_points_at env entry t w). fold (title_en_at env t w).
  fold (message_at env entry u t w). fold k. fold message.
  fold (enriched entry t w). fold w2.
  assert (N2 : now w2 = now w + 2).
  { unfold w2, enriched. rewrite !now_emit. lia. }
  assert (N3 : now w3 = now w + 3).
  { unfold w3. rewrite now_emit, N2. lia. }
  unfold bind at 1. unfold send at 1. unfold external at 1.
  rewrite N2. fold w3.
  destruct (env_send env (now w + 2) channel message) as [[]|ex]; [|reflexivity].
  unfold bind at 1. unfold get_channel at 1. rewrite N3.
  destruct (env_get_channel env (now w + 3) GLOBAL_CHANNEL_ID).
  - unfold bind at 1. unfold send at 1. unfold external at 1.
    rewrite N3. fold w4.
    destruct (env_send env (now w + 3) GLOBAL_CHANNEL_ID
                (format_global country message)) as [[]|ex]; [|reflexivity].
    unfold bind, on_db, sleep, external.
    rewrite StoreFacts.add_article_eq.
    replace (db w4) with (db w) by reflexivity. rewrite Hp. reflexivity.
  - unfold bind, on_db, sleep, external, ret.
    rewrite StoreFacts.add_article_eq.
    replace (db w3) with (db w) by reflexivity. rewrite Hp. reflexivity.
Qed.

(** A new entry without a title: the attribute read raises before any
    external call. *)
Lemma process_entry_no_title country channel entry u w :
  link entry = Some u -> title entry = None ->
  DatabaseManager.has_url u (db w) = false ->
  process_entry env country channel entry w = (Raise (AttributeError "title"), w).
Proof.
  intros Hl Ht Hp. destruct w as [d tr]. simpl in Hp.
  unfold process_entry. rewrite Hl, Ht.
  erewrite bind_Ok by reflexivity.
  erewrite bind_Ok
    by (unfold on_db, DatabaseManager.is_posted; simpl; rewrite Hp; reflexivity).
  cbv iota. unfold extract_text. rewrite Ht.
  destruct (get_truthy (description entry));
    [|destruct (get_truthy (entry_summary entry))]; reflexivity.
Qed.

(** What processing one entry can do to the table: nothing, or one row
    for a link that was not recorded, and then the entry was processed to
    the end. *)
Lemma process_entry_db country channel entry w :
  let out := process_entry env country channel entry w in
  db (snd out) = db w
  \/ exists u k,
       link entry = Some u
       /\ DatabaseManager.has_url u (db w) = false
       /\ db (snd out) = (db w ++ [{| url := u; summary := k |}])%list
       /\ fst out = Ok tt.
Proof.
  intros out. subst out.
  destruct (link entry) as [u|] eqn:Hl;
    [|rewrite process_entry_no_link by assumption; now left].
  destruct (DatabaseManager.has_url u (db w)) eqn:Hp;
    [rewrite (process_entry_posted _ _ _ u) by assumption; now left|].
  destruct (title entry) as [t|] eqn:Ht;
    [|rewrite (process_entry_no_title _ _ _ u) by assumption; now left].
  rewrite (process_entry_new _ _ _ u t) by assumption.
  destruct (env_send env (now w + 2) channel (message_at env entry u t w))
    as [[]|ex]; [|now left].
  destruct (env_get_channel env (now w + 3) GLOBAL_CHANNEL_ID).
  - destruct (env_send env (now w + 3) GLOBAL_CHANNEL_ID
                (format_global country (message_at env entry u t w)))
      as [[]|ex]; [|now left].
    right. exists u, (key_points_at env entry t w). repeat split; assumption.
  - right. exists u, (key_points_at env entry t w). repeat split; assumption.
Qed.

Lemma keeps_posted_refl w : keeps_posted w w.
Proof. intros u H. exact H. Qed.

Lemma keeps_posted_trans w1 w2 w3 :
  keeps_posted w1 w2 -> keeps_posted w2 w3 -> keeps_posted w1 w3.
Proof. intros H12 H23 u H. apply H23, H12, H. Qed.

Lemma process_entry_keeps country channel entry w :
  keeps_posted w (snd (process_entry env country channel entry w)).
Proof.
  intros v Hv.
  destruct (process_entry_db country channel entry w)
    as [E|(u & k & _ & _ & E & _)]; rewrite E; [assumption|].
  rewrite StoreFacts.has_url_app, Hv. reflexivity.
Qed.

Lemma process_entry_length country channel entry w :
  length (db (snd (process_entry env country channel entry w)))
  <= length (db w) + 1.
Proof.
  destruct (process_entry_db country channel entry w)
    as [E|(u & k & _ & _ & E & _)]; rewrite E; [lia|].
  rewrite length_app. simpl. lia.
Qed.

(** The loop over the entries of one feed. *)
Lemma for_each_entries_keeps country channel entries w :
  keeps_posted w (snd (for_each entries (process_entry env country channel) w)).
Proof.
  revert w. induction entries as [|e es IH]; intros w; simpl.
  - apply keeps_posted_refl.
  - unfold bind.
    pose proof (process_entry_keeps country channel e w) as H.
    destruct (process_entry env country channel e w) as [[[]|ex] w1]; simpl in H.
    + eapply keeps_posted_trans; [exact H|apply IH].
    + exact H.
Qed.

Lemma for_each_entries_length country channel entries w :
  length (db (snd (for_each entries (process_entry env country channel) w)))
  <= length (db w) + length entries.
Proof.
  revert w. induction entries as [|e es IH]; intros w; simpl.
  - lia.
  - unfold bind.
    pose proof (process_entry_length country channel e w) as H.
    destruct (process_entry env country channel e w) as [[[]|ex] w1]; simpl in H.
    + specialize (IH w1). lia.
    + simpl. lia.
Qed.

(** A recorded entry at the head of the loop is passed over. *)
Lemma for_each_skips_posted country channel entry entries u w :
  link entry = Some u ->
  DatabaseManager.has_url u (db w) = true ->
  for_each (entry :: entries) (process_entry env country channel) w
  = for_each entries (process_entry env country channel) w.
Proof.
  intros Hl Hp. simpl.
  now rewrite (bind_Ok _ _ _ _ _ (process_entry_posted country channel entry u w Hl Hp)).
Qed.

(** The external calls made for one entry. *)
Lemma since_app w w' d : trace w' = (trace w ++ d)%list -> since w w' = d.
Proof.
  intros E. unfold since. rewrite E, skipn_app, skipn_all, Nat.sub_diag.
  reflexivity.
Qed.

Lemma since_refl w : since w w = [].
Proof. apply since_app. now rewrite app_nil_r. Qed.

Lemma process_entry_events country channel entry u t w :
  link entry = Some u -> title entry = Some t ->
  DatabaseManager.has_url u (db w) = false ->
  since w (snd (process_entry env country channel entry w))
  = entry_events env entry u t w country channel.
Proof.
  intros Hl Ht Hp. rewrite (process_entry_new _ _ _ u t) by assumption.
  cbv zeta. apply since_app. unfold entry_events.
  fold (source_delivery env entry u t w channel).
  fold (global_found env w).
  fold (global_delivery env entry u t w country).
  destruct (source_delivery env entry u t w channel) as [[]|ex];
    [destruct (global_found env w);
     [destruct (global_delivery env entry u t w country) as [[]|ex]|]|];
    cbn [snd trace emit record enriched]; rewrite <- !app_assoc; reflexivity.
Qed.

(** Nothing is called for an entry that is recorded, has no link, or is
    new and has no title. *)
Lemma process_entry_quiet country channel entry w :
  (forall u t, link entry = Some u -> title entry = Some t ->
               DatabaseManager.has_url u (db w) = true) ->
  snd (process_entry env country channel entry w) = w.
Proof.
  intros H.
  destruct (link entry) as [u|] eqn:Hl;
    [|now rewrite process_entry_no_link].
  destruct (DatabaseManager.has_url u (db w)) eqn:Hp;
    [now rewrite (process_entry_posted _ _ _ u)|].
  destruct (title entry) as [t|] eqn:Ht;
    [|now rewrite (process_entry_no_title _ _ _ u)].
  rewrite (H u t eq_refl eq_refl) in Hp. discriminate.
Qed.

(** An entry processed to the end is recorded. *)
Lemma process_entry_Ok_posted country channel entry u w w1 :
  link entry = Some u ->
  process_entry env country channel entry w = (Ok tt, w1) ->
  DatabaseManager.has_url u (db w1) = true.
Proof.
  intros Hl E.
  assert (R : forall k w',
             DatabaseManager.has_url u (db (emit (EvSleep 3) (record u k w')))
             = true).
  { intros k w'. simpl. rewrite StoreFacts.has_url_app. simpl.
    rewrite String.eqb_refl. apply orb_true_r. }
  destruct (DatabaseManager.has_url u (db w)) eqn:Hp.
  - rewrite (process_entry_posted _ _ _ u) in E by assumption.
    injection E as <-. assumption.
  - destruct (title entry) as [t|] eqn:Ht;
      [|rewrite (process_entry_no_title _ _ _ u) in E by assumption;
        discriminate].
    rewrite (process_entry_new _ _ _ u t) in E by assumption. cbv zeta in E.
    destruct (env_send env (now w + 2) channel (message_at env entry u t w))
      as [[]|ex]; [|discriminate].
    destruct (env_get_channel env (now w + 3) GLOBAL_CHANNEL_ID).
    + destruct (env_send env (now w + 3) GLOBAL_CHANNEL_ID
                  (format_global country (message_at env entry u t w)))
        as [[]|ex]; [|discriminate].
      injection E as <-. apply R.
    + injection E as <-. apply R.
Qed.

Lemma posts_entry_events entry u t w country channel :
  posts (entry_events env entry u t w country channel)
  = [summary_request entry t; title_request t].
Proof.
  unfold entry_events.
  destruct (source_delivery env entry u t w channel) as [[]|ex];
    [destruct (global_found env w);
     [destruct (global_delivery env entry u t w country) as [[]|ex]|]|];
    reflexivity.
Qed.

Lemma sends_entry_events entry u t w country channel :
  sends (entry_events env entry u t w country channel)
  = (channel, message_at env entry u t w)
    :: match source_delivery env entry u t w channel with
       | Raise _ => []
       | Ok _ =>
           if global_found env w
           then [(GLOBAL_CHANNEL_ID,
                  format_global country (message_at env entry u t w))]
           else []
       end.
Proof.
  unfold entry_events.
  destruct (source_delivery env entry u t w channel) as [[]|ex];
    [destruct (global_found env w);
     [destruct (global_delivery env entry u t w country) as [[]|ex]|]|];
    reflexivity.
Qed.

(** [process_rss] returns whatever happens in its body. *)
Lemma process_rss_eq country config w :
  process_rss env country config w
  = (Ok tt, snd (process_rss_body env country config w)).
Proof.
  unfold process_rss, try_except, is_Exception, ret.
  destruct (process_rss_body env country config w) as [[[]|ex] w1]; reflexivity.
Qed.

(** The body of [process_rss] once the feed is there. *)
Lemma process_rss_body_eq country config id w :
  channel_id config = Some id -> id <> 0%Z ->
  env_get_channel env (now w) id = true ->
  process_rss_body env country config w =
    match env_parse env (now w) (rss_url config) with
    | Raise ex => (Raise ex, emit (EvFetch (rss_url config)) w)
    | Ok entries =>
        for_each (firstn 3 entries) (process_entry env country id)
          (emit (EvFetch (rss_url config)) w)
    end.
Proof.
  intros Hc Hid Hch. unfold process_rss_body. rewrite Hc.
  apply Z.eqb_neq in Hid. rewrite Hid.
  unfold bind at 1. unfold get_channel at 1. rewrite Hch. cbn [negb].
  unfold bind at 1. unfold get_feed, external.
  destruct (env_parse env (now w) (rss_url config)) as [[|e es]|ex]; reflexivity.
Qed.

(** Either the source is passed over, or its feed is fetched and the loop
    runs on the first three entries. *)
Lemma process_rss_body_cases country config w :
  fst (process_rss_body env country config w) = Ok tt
  /\ snd (process_rss_body env country config w) = w
  \/ exists id,
       channel_id config = Some id /\ id <> 0%Z
       /\ env_get_channel env (now w) id = true.
Proof.
  unfold process_rss_body.
  destruct (channel_id config) as [id|]; [|now left].
  destruct (id =? 0)%Z eqn:Hid; [now left|]. apply Z.eqb_neq in Hid.
  unfold bind, get_channel. cbv beta.
  destruct (env_get_channel env (now w) id) eqn:Hch;
    [|left; split; reflexivity].
  right. exists id. repeat split; assumption.
Qed.

Lemma process_rss_body_keeps country config w :
  keeps_posted w (snd (process_rss_body env country config w)).
Proof.
  destruct (process_rss_body_cases country config w)
    as [[_ E]|(id & Hc & Hid & Hch)].
  - rewrite E. apply keeps_posted_refl.
  - rewrite (process_rss_body_eq country config id w Hc Hid Hch).
    destruct (env_parse env (now w) (rss_url config)) as [entries|ex].
    + eapply keeps_posted_trans;
        [|apply for_each_entries_keeps]. intros u H. exact H.
    + intros u H. exact H.
Qed.

Lemma process_rss_body_length country config w :
  length (db (snd (process_rss_body env country config w))) <= length (db w) + 3.
Proof.
  destruct (process_rss_body_cases country config w)
    as [[_ E]|(id & Hc & Hid & Hch)].
  - rewrite E. lia.
  - rewrite (process_rss_body_eq country config id w Hc Hid Hch).
    destruct (env_parse env (now w) (rss_url config)) as [entries|ex].
    + pose proof (for_each_entries_length country id (firstn 3 entries)
                    (emit (EvFetch (rss_url config)) w)) as H.
      pose proof (firstn_le_length 3 entries) as L.
      rewrite db_emit in H. lia.
    + simpl. lia.
Qed.

(** One cycle: every source in turn, each from the world the previous one
    left. *)
Lemma news_loop_eq sources w :
  news_loop env sources w
  = (Ok tt,
     fold_left (fun w' s => snd (process_rss env (fst s) (snd s) w')) sources w).
Proof.
  unfold news_loop. revert w.
  induction sources as [|s rest IH]; intros w; simpl; [reflexivity|].
  unfold bind. rewrite process_rss_eq. simpl. apply IH.
Qed.

Lemma news_loop_keeps sources w :
  keeps_posted w (snd (news_loop env sources w)).
Proof.
  rewrite news_loop_eq. simpl. revert w.
  induction sources as [|s rest IH]; intros w; simpl.
  - apply keeps_posted_refl.
  - eapply keeps_posted_trans; [|apply IH].
    rewrite process_rss_eq. simpl. apply process_rss_body_keeps.
Qed.

(** New, distinct entries while Discord accepts every message: each one
    is processed to the end and recorded, in feed order. *)
Lemma for_each_new_entries country channel :
  (forall n id m, env_send env n id m = Ok tt) ->
  forall entries urls w,
    map link entries = map Some urls ->
    Forall (fun e => title e <> None) entries ->
    NoDup urls ->
    (forall u, In u urls -> DatabaseManager.has_url u (db w) = false) ->
    exists w',
      for_each entries (process_entry env country channel) w = (Ok tt, w')
      /\ map url (db w') = (map url (db w) ++ urls)%list.
Proof.
  intros Hsend. induction entries as [|e es IH]; intros urls w Hl Ht Hnd Hnew.
  - destruct urls; [|discriminate]. exists w. simpl.
    rewrite app_nil_r. split; reflexivity.
  - destruct urls as [|u urls]; [discriminate|]. simpl in Hl.
    injection Hl as Hle Hles.
    inversion Ht as [|x l Hte Htes]; subst.
    inversion Hnd as [|x l Hu Hnd']; subst.
    destruct (title e) as [t|] eqn:Et; [|congruence].
    assert (Hp : DatabaseManager.has_url u (db w) = false)
      by (apply Hnew; now left).
    pose proof (process_entry_new country channel e u t w Hle Et Hp) as E.
    cbv zeta in E. rewrite !Hsend in E.
    assert (exists w1,
               process_entry env country channel e w = (Ok tt, w1)
               /\ db w1 = (db w ++ [{| url := u;
                                       summary := key_points_at env e t w |}])%list)
      as (w1 & E1 & D1).
    { destruct (env_get_channel env (now w + 3) GLOBAL_CHANNEL_ID);
        eexists; (split; [exact E|reflexivity]). }
    destruct (IH urls w1 Hles Htes Hnd') as (w' & E' & D').
    { intros v Hv. rewrite D1, StoreFacts.has_url_app.
      rewrite (Hnew v) by now right. simpl.
      destruct (u =? v) eqn:Euv; [|reflexivity].
      apply String.eqb_eq in Euv. subst v. contradiction. }
    exists w'. split.
    + simpl. rewrite (bind_Ok _ _ _ _ _ E1). exact E'.
    + rewrite D', D1, map_app. simpl. rewrite <- app_assoc. reflexivity.
Qed.

(** The same loop with the calls it makes: while Discord accepts every
    message and the client knows the shared channel, each new entry gets
    its two requests and a delivery to each of the two channels. *)
Lemma for_each_new_entries_calls country channel :
  forall entries urls w,
    (forall n i m, now w <= n -> env_send env n i m = Ok tt) ->
    (forall n, now w <= n -> env_get_channel env n GLOBAL_CHANNEL_ID = true) ->
    map link entries = map Some urls ->
    Forall (fun e => title e <> None) entries ->
    NoDup urls ->
    (forall u, In u urls -> DatabaseManager.has_url u (db w) = false) ->
    exists w' d,
      for_each entries (process_entry env country channel) w = (Ok tt, w')
      /\ trace w' = (trace w ++ d)%list
      /\ map url (db w') = (map url (db w) ++ urls)%list
      /\ length (posts d) = 2 * length urls
      /\ map fst (sends d)
         = flat_map (fun _ => [channel; GLOBAL_CHANNEL_ID]) urls
      /\ fetches d = [].
Proof.
  induction entries as [|e es IH]; intros urls w Hsend Hch Hl Ht Hnd Hnew.
  - destruct urls; [|discriminate]. exists w, []. simpl.
    rewrite !app_nil_r. repeat split.
  - destruct urls as [|u urls]; [discriminate|]. simpl in Hl.
    injection Hl as Hle Hles.
    inversion Ht as [|x l Hte Htes]; subst.
    inversion Hnd as [|x l Hu Hnd']; subst.
    destruct (title e) as [t|] eqn:Et; [|congruence].
    assert (Hp : DatabaseManager.has_url u (db w) = false)
      by (apply Hnew; now left).
    pose proof (process_entry_new country channel e u t w Hle Et Hp) as E.
    cbv zeta in E.
    rewrite (Hsend (now w + 2)), (Hch (now w + 3)), (Hsend (now w + 3)) in E
      by lia.
    set (w1 := emit (EvSleep 3)
                 (record u (key_points_at env e t w)
                    (emit (EvSend GLOBAL_CHANNEL_ID
                             (format_global country (message_at env e u t w)))
                       (emit (EvSend channel (message_at env e u t w))
                          (enriched e t w))))) in E.
    assert (T1 : trace w1
                 = (trace w ++
                    [EvPost (summary_request e t); EvPost (title_request t);
                     EvSend channel (message_at env e u t w);
                     EvSend GLOBAL_CHANNEL_ID
                       (format_global country (message_at env e u t w));
                     EvSleep 3])%list).
    { unfold w1. cbn [trace emit record enriched]. rewrite <- !app_assoc.
      reflexivity. }
    assert (N1 : now w <= now w1).
    { unfold now. rewrite T1, length_app. lia. }
    destruct (IH urls w1) as (w' & d & E' & T' & D' & P' & S' & F').
    + intros n i m Hn. apply Hsend. lia.
    + intros n Hn. apply Hch. lia.
    + exact Hles.
    + exact Htes.
    + exact Hnd'.
    + intros v Hv. unfold w1. cbn [db emit record enriched].
      rewrite StoreFacts.has_url_app, (Hnew v) by now right. simpl.
      destruct (u =? v) eqn:Euv; [|reflexivity].
      apply String.eqb_eq in Euv. subst v. contradiction.
    + exists w'. eexists. split; [|split; [|split; [|split; [|split]]]].
      * simpl. rewrite (bind_Ok _ _ _ _ _ E). exact E'.
      * rewrite T', T1, <- app_assoc. reflexivity.
      * rewrite D'. unfold w1. cbn [db emit record enriched].
        rewrite map_app. simpl. rewrite <- app_assoc. reflexivity.
      * rewrite posts_app, length_app, P'. simpl. lia.
      * rewrite sends_app, map_app, S'. reflexivity.
      * rewrite fetches_app, F'. reflexivity.
Qed.

End Facts.

(** Cutting every feed to its first three entries changes nothing for
    [process_rss]: what comes after the third entry is never looked at. *)
Lemma process_entry_truncate n env country channel entry :
  process_entry (truncate_feeds n env) country channel entry
  = process_entry env country channel entry.
Proof. reflexivity. Qed.

Lemma process_rss_truncate env country config w :
  process_rss (truncate_feeds 3 env) country config w
  = process_rss env country config w.
Proof.
  rewrite !process_rss_eq. f_equal. f_equal.
  unfold process_rss_body.
  destruct (channel_id config) as [id|]; [|reflexivity].
  destruct (id =? 0)%Z; [reflexivity|].
  unfold bind at 1 3. unfold get_channel at 1 2.
  change (env_get_channel (truncate_feeds 3 env)) with (env_get_channel env).
  destruct (env_get_channel env (now w) id); [|reflexivity]. cbn [negb].
  unfold bind, get_feed, external.
  change (env_parse (truncate_feeds 3 env) (now w) (rss_url config))
    with (match env_parse env (now w) (rss_url config) with
          | Ok entries => Ok (firstn 3 entries)
          | Raise e => Raise e
          end).
  destruct (env_parse env (now w) (rss_url config)) as [[|e es]|ex];
    [reflexivity| |reflexivity].
  rewrite firstn_firstn. reflexivity.
Qed.

End BotFacts.


Lemma reply_text_failed answer :
  failed answer = true ->
  exists detail,
    reply_text answer = "Error: " ++ detail
    \/ reply_text answer = "LLM Error: " ++ detail.
Proof.
  unfold failed, reply_text. destruct answer as [response|e]; intros H.
  - apply negb_true_iff in H. rewrite H.
    exists (str_int (status response)). now left.
  - exists (str_exn e). now right.
Qed.

(** * The pipeline against its specification *)

(** C1, as the code has it.  A failed enrichment does not abort the item:
    [query_llm] hands back the error text as its value, the message built
    from it is sent, and when the deliveries return a row holding the text
    of the summary call is inserted, so that the entry is passed over
    whenever it is presented again. *)
Theorem enrichment_failure_is_recorded :
  forall env country channel entry u t w,
    link entry = Some u -> title entry = Some t ->
    DatabaseManager.has_url u (db w) = false ->
    failed (env_post env (now w) (summary_request entry t)) = true
    \/ failed (env_post env (now w + 1) (title_request t)) = true ->
    source_delivery env entry u t w channel = Ok tt ->
    (global_found env w = true ->
     global_delivery env entry u t w country = Ok tt) ->
    exists w1,
      NewsBot.process_entry env country channel entry w = (Ok tt, w1)
      /\ In (channel, message_at env entry u t w) (sends (since w w1))
      /\ db w1
         = (db w ++ [{| url := u; summary := key_points_at env entry t w |}])%list
      /\ (failed (env_post env (now w) (summary_request entry t)) = true ->
          exists detail,
            key_points_at env entry t w = "Error: " ++ detail
            \/ key_points_at env entry t w = "LLM Error: " ++ detail)
      /\ forall w2, keeps_posted w1 w2 ->
           forall env' country' channel',
             NewsBot.process_entry env' country' channel' entry w2 = (Ok tt, w2).
Proof.
  intros env country channel entry u t w Hl Ht Hp _ Hs Hg.
  exists (snd (NewsBot.process_entry env country channel entry w)).
  assert (E : NewsBot.process_entry env country channel entry w
              = (Ok tt, snd (NewsBot.process_entry env country channel entry w))
              /\ db (snd (NewsBot.process_entry env country channel entry w))
                 = (db w ++ [{| url := u;
                                summary := key_points_at env entry t w |}])%list).
  { rewrite (BotFacts.process_entry_new env country channel entry u t w Hl Ht Hp).
    cbv zeta. unfold source_delivery in Hs. rewrite Hs.
    unfold global_found, global_delivery in Hg.
    destruct (env_get_channel env (now w + 3) GLOBAL_CHANNEL_ID).
    - rewrite (Hg eq_refl). split; reflexivity.
    - split; reflexivity. }
  destruct E as [E D]. split; [exact E|]. split; [|split; [exact D|split]].
  - rewrite (BotFacts.process_entry_events env country channel entry u t w Hl Ht Hp).
    rewrite BotFacts.sends_entry_events. now left.
  - apply reply_text_failed.
  - intros w2 Hk env' country' channel'.
    apply (BotFacts.process_entry_posted env' country' channel' entry u w2 Hl).
    apply Hk. eapply BotFacts.process_entry_Ok_posted; eassumption.
Qed.

Lemma enrichment_failure_is_recorded_witness :
  failed (env_post Scenario.failing 0 (summary_request Scenario.item1 "T")) = true
  /\ exists w1,
       NewsBot.process_entry Scenario.failing "X" Scenario.chan_X
         Scenario.item1 Scenario.fresh = (Ok tt, w1)
       /\ db w1 = [{| url := "u1"; summary := "Error: 500" |}].
Proof.
  split; [reflexivity|].
  destruct (enrichment_failure_is_recorded
              Scenario.failing "X" Scenario.chan_X
              Scenario.item1 "u1" "T" Scenario.fresh
              eq_refl eq_refl eq_refl (or_introl eq_refl) eq_refl
              (fun _ => eq_refl))
    as (w1 & E & _ & D & _).
  exists w1. split; [exact E|exact D].
Defined.

(** C1 fails as stated: with a backend that answers 500 to every request,
    the new item is recorded with the error text as its summary, and the
    next cycle makes no request for it. *)
Lemma enrichment_failure_not_retried :
  failed (env_post Scenario.failing 1 (summary_request Scenario.item1 "T")) = true
  /\ failed (env_post Scenario.failing 2 (title_request "T")) = true
  /\ db (Scenario.poll Scenario.failing Scenario.fresh)
     = [{| url := "u1"; summary := "Error: 500" |}]
  /\ posts (since (Scenario.poll Scenario.failing Scenario.fresh)
              (Scenario.poll Scenario.failing
                 (Scenario.poll Scenario.failing Scenario.fresh))) = [].
Proof. vm_compute. repeat split. Qed.

(** C2, as the code has it.  A delivery that raises, on the channel of the
    source or on the shared channel, ends the processing of the entry
    before [add_article]: no row is inserted, the loop over the feed stops
    there, and the entry, still not recorded, is enriched again the next
    time it is presented. *)
Theorem delivery_failure_leaves_no_record :
  forall env country channel entry u t w ex,
    link entry = Some u -> title entry = Some t ->
    DatabaseManager.has_url u (db w) = false ->
    source_delivery env entry u t w channel = Raise ex
    \/ (source_delivery env entry u t w channel = Ok tt
        /\ global_found env w = true
        /\ global_delivery env entry u t w country = Raise ex) ->
    exists w1,
      NewsBot.process_entry env country channel entry w = (Raise ex, w1)
      /\ db w1 = db w
      /\ (forall rest,
            for_each (entry :: rest) (NewsBot.process_entry env country channel) w
            = (Raise ex, w1))
      /\ forall env' country' channel',
           posts (since w1 (snd (NewsBot.process_entry env' country' channel'
                                   entry w1)))
           = [summary_request entry t; title_request t].
Proof.
  intros env country channel entry u t w ex Hl Ht Hp Hfail.
  assert (E : exists w1,
             NewsBot.process_entry env country channel entry w = (Raise ex, w1)
             /\ db w1 = db w).
  { rewrite (BotFacts.process_entry_new env country channel entry u t w Hl Ht Hp).
    cbv zeta. unfold source_delivery, global_found, global_delivery in Hfail.
    destruct Hfail as [Hs|(Hs & Hf & Hg)]; rewrite Hs.
    - eexists. split; reflexivity.
    - rewrite Hf, Hg. eexists. split; reflexivity. }
  destruct E as (w1 & E & D). exists w1. repeat split; try assumption.
  - intros rest. simpl. now apply BotFacts.bind_Raise.
  - intros env' country' channel'.
    rewrite (BotFacts.process_entry_events env' country' channel' entry u t w1 Hl Ht)
      by (rewrite D; exact Hp).
    apply BotFacts.posts_entry_events.
Qed.

Lemma delivery_failure_leaves_no_record_witness :
  source_delivery Scenario.refusing Scenario.item1 "u1" "T" Scenario.fetched
    Scenario.chan_X
  = Raise (Exception "403 Forbidden")
  /\ exists w1,
       NewsBot.process_entry Scenario.refusing "X" Scenario.chan_X
         Scenario.item1 Scenario.fetched
       = (Raise (Exception "403 Forbidden"), w1)
       /\ db w1 = [].
Proof.
  split; [reflexivity|].
  destruct (delivery_failure_leaves_no_record
              Scenario.refusing "X" Scenario.chan_X
              Scenario.item1 "u1" "T" Scenario.fetched
              (Exception "403 Forbidden")
              eq_refl eq_refl eq_refl (or_introl eq_refl))
    as (w1 & E & D & _).
  exists w1. split; [exact E|exact D].
Defined.

(** C2 fails as stated: both requests of the enrichment are answered with
    status 200, Discord refuses the message for the channel of the source,
    and no row exists for the item when the cycle is over. *)
Lemma delivery_failure_blocks_record :
  failed (env_post Scenario.refusing 1 (summary_request Scenario.item1 "T")) = false
  /\ failed (env_post Scenario.refusing 2 (title_request "T")) = false
  /\ sends (trace (Scenario.poll Scenario.refusing Scenario.fresh))
     = [(Scenario.chan_X, Scenario.message1)]
  /\ env_send Scenario.refusing 3 Scenario.chan_X Scenario.message1
     = Raise (Exception "403 Forbidden")
  /\ DatabaseManager.records_for "u1"
       (db (Scenario.poll Scenario.refusing Scenario.fresh)) = 0.
Proof. vm_compute. repeat split. Qed.

(** C3, as the code has it.  An entry processed to the end is recorded; it
    stays recorded through every later cycle, whatever the world does; and
    from then on it is passed over whenever it is presented, alone or at
    the head of a feed: no request, no delivery, no insertion, no call at
    all.  The run that recorded it made at most the two requests of one
    enrichment and at most two deliveries, one message to the channel of
    the source and then, at most, that message to the shared channel, so
    over that run and every later presentation the entry is enriched and
    dispatched at most once.  An entry with a title whose processing
    raised is not recorded, and as long as it is not recorded every
    presentation enriches it again (both requests) and calls the
    dispatcher again. *)
Theorem recorded_item_is_skipped :
  forall env country channel entry u w,
    link entry = Some u ->
    (forall w1,
        NewsBot.process_entry env country channel entry w = (Ok tt, w1) ->
        DatabaseManager.has_url u (db w1) = true
        /\ length (posts (since w w1)) <= 2
        /\ length (sends (since w w1)) <= 2
        /\ (sends (since w w1) = []
            \/ exists m,
                 sends (since w w1) = [(channel, m)]
                 \/ sends (since w w1)
                    = [(channel, m);
                       (GLOBAL_CHANNEL_ID, NewsBot.format_global country m)])
        /\ (forall env' sources,
              DatabaseManager.has_url u
                (db (snd (NewsBot.news_loop env' sources w1))) = true)
        /\ forall w2, keeps_posted w1 w2 ->
             forall env' country' channel',
               NewsBot.process_entry env' country' channel' entry w2 = (Ok tt, w2)
               /\ since w2 (snd (NewsBot.process_entry env' country' channel'
                                   entry w2)) = []
               /\ forall rest,
                    for_each (entry :: rest)
                      (NewsBot.process_entry env' country' channel') w2
                    = for_each rest
                        (NewsBot.process_entry env' country' channel') w2)
    /\ (forall ex w1 t,
          title entry = Some t ->
          NewsBot.process_entry env country channel entry w = (Raise ex, w1) ->
          DatabaseManager.has_url u (db w1) = false
          /\ forall w2,
               DatabaseManager.has_url u (db w2) = false ->
               forall env' country' channel',
                 posts (since w2 (snd (NewsBot.process_entry env' country'
                                         channel' entry w2)))
                 = [summary_request entry t; title_request t]
                 /\ hd_error
                      (sends (since w2 (snd (NewsBot.process_entry env' country'
                                               channel' entry w2))))
                    = Some (channel', message_at env' entry u t w2)).
Proof.
  intros env country channel entry u w Hl. split.
  - intros w1 E.
    pose proof (BotFacts.process_entry_Ok_posted env country channel entry u w w1
                  Hl E) as Hp.
    assert (Once : length (posts (since w w1)) <= 2
                   /\ length (sends (since w w1)) <= 2
                   /\ (sends (since w w1) = []
                       \/ exists m,
                            sends (since w w1) = [(channel, m)]
                            \/ sends (since w w1)
                               = [(channel, m);
                                  (GLOBAL_CHANNEL_ID,
                                   NewsBot.format_global country m)])).
    { destruct (DatabaseManager.has_url u (db w)) eqn:Hw.
      - rewrite (BotFacts.process_entry_posted env country channel entry u w Hl Hw)
          in E. injection E as <-. rewrite BotFacts.since_refl. simpl.
        repeat split; try lia. now left.
      - destruct (title entry) as [t|] eqn:Ht;
          [|rewrite (BotFacts.process_entry_no_title env country channel entry u
                       w Hl Ht Hw) in E; discriminate].
        pose proof (BotFacts.process_entry_events env country channel entry u t w
                      Hl Ht Hw) as Ev.
        rewrite E in Ev. cbn [snd] in Ev. rewrite Ev.
        rewrite BotFacts.posts_entry_events, BotFacts.sends_entry_events.
        destruct (source_delivery env entry u t w channel);
          [destruct (global_found env w)|]; simpl;
          (repeat split; try lia);
          right; exists (message_at env entry u t w);
          ((now left) || (now right)). }
    split; [exact Hp|]. split; [exact (proj1 Once)|].
    split; [exact (proj1 (proj2 Once))|].
    split; [exact (proj2 (proj2 Once))|split].
    + intros env' sources. now apply BotFacts.news_loop_keeps.
    + intros w2 Hk env' country' channel'.
      pose proof (BotFacts.process_entry_posted env' country' channel' entry u w2
                    Hl (Hk u Hp)) as Skip.
      split; [exact Skip|split].
      * rewrite Skip. apply BotFacts.since_refl.
      * intros rest.
        apply (BotFacts.for_each_skips_posted env' country' channel' entry rest
                 u w2 Hl).
        now apply Hk.
  - intros ex w1 t Ht E.
    assert (Hp : DatabaseManager.has_url u (db w) = false).
    { destruct (DatabaseManager.has_url u (db w)) eqn:Hp; [|reflexivity].
      rewrite (BotFacts.process_entry_posted env country channel entry u w Hl Hp)
        in E. discriminate. }
    split.
    + destruct (BotFacts.process_entry_db env country channel entry w)
        as [D|(u' & k & _ & _ & _ & F)]; rewrite E in *; cbn [fst snd] in *;
        [now rewrite D|discriminate].
    + intros w2 Hp2 env' country' channel'.
      rewrite (BotFacts.process_entry_events env' country' channel' entry u t w2
                 Hl Ht Hp2).
      split; [apply BotFacts.posts_entry_events|].
      now rewrite BotFacts.sends_entry_events.
Qed.

Lemma recorded_item_is_skipped_witness :
  NewsBot.process_entry (Scenario.healthy [Scenario.item1]) "X" Scenario.chan_X
    Scenario.item1 (Scenario.poll (Scenario.healthy [Scenario.item1]) Scenario.fresh)
  = (Ok tt, Scenario.poll (Scenario.healthy [Scenario.item1]) Scenario.fresh)
  /\ posts (since Scenario.fetched
              (snd (NewsBot.process_entry Scenario.refusing "X" Scenario.chan_X
                      Scenario.item1 Scenario.fetched)))
     = [summary_request Scenario.item1 "T"; title_request "T"].
Proof.
  split.
  - refine (proj1 (proj2 (proj2 (proj2 (proj2 (proj2
      (proj1 (recorded_item_is_skipped (Scenario.healthy [Scenario.item1]) "X"
                Scenario.chan_X Scenario.item1 "u1" Scenario.fetched eq_refl)
         (Scenario.poll (Scenario.healthy [Scenario.item1]) Scenario.fresh) _)))))
      (Scenario.poll (Scenario.healthy [Scenario.item1]) Scenario.fresh) _
      (Scenario.healthy [Scenario.item1]) "X" Scenario.chan_X)).
    + vm_compute. reflexivity.
    + intros v H. exact H.
  - refine (proj1 (proj2
      (proj2 (recorded_item_is_skipped Scenario.refusing "X" Scenario.chan_X
                Scenario.item1 "u1" Scenario.fetched eq_refl)
         (Exception "403 Forbidden")
         (snd (NewsBot.process_entry Scenario.refusing "X" Scenario.chan_X
                 Scenario.item1 Scenario.fetched))
         "T" eq_refl _)
      Scenario.fetched eq_refl Scenario.refusing "X" Scenario.chan_X)).
    vm_compute. reflexivity.
Defined.

(** C3 fails as stated: the feed returns the same item at two consecutive
    cycles; the delivery raises in the first, so the item is enriched in
    both (two requests for the summary, two for the headline) and the
    dispatcher is called for it in both. *)
Lemma refused_item_is_enriched_twice :
  env_parse Scenario.refusing 0 "F" = Ok [Scenario.item1]
  /\ env_parse Scenario.refusing 4 "F" = Ok [Scenario.item1]
  /\ posts (trace (Scenario.poll Scenario.refusing
                     (Scenario.poll Scenario.refusing Scenario.fresh)))
     = [summary_request Scenario.item1 "T"; title_request "T";
        summary_request Scenario.item1 "T"; title_request "T"]
  /\ sends (trace (Scenario.poll Scenario.refusing
                     (Scenario.poll Scenario.refusing Scenario.fresh)))
     = [(Scenario.chan_X, Scenario.message1);
        (Scenario.chan_X, Scenario.message1);
        (GLOBAL_CHANNEL_ID, NewsBot.format_global "X" Scenario.message1)].
Proof. vm_compute. repeat split. Qed.

(** C5. [process_rss] returns normally whatever happens in its body, an
    exception raised there ends that source only, and a cycle runs every
    source of the registry in order, each from the world the one before
    left: the sources after a failed one are processed as they would be
    after a successful one.  In particular, when the body of a source
    raises and the next source is in working order (its channel is known,
    its feed is fetched, Discord accepts the messages), the next source is
    processed in full in the same cycle: its feed is fetched and each of
    its first three entries, if new, gets its two requests, is delivered
    to the channel of that source and to the shared channel, and is
    recorded. *)
Theorem source_isolation :
  forall env before A after w,
    (forall country config w0,
        NewsBot.process_rss env country config w0
        = (Ok tt, snd (NewsBot.process_rss_body env country config w0)))
    /\ (forall ex w0 w1,
          NewsBot.process_rss_body env (fst A) (snd A) w0 = (Raise ex, w1) ->
          NewsBot.news_loop env (A :: after) w0 = NewsBot.news_loop env after w1)
    /\ NewsBot.news_loop env (before ++ A :: after)%list w
       = NewsBot.news_loop env after
           (snd (NewsBot.process_rss env (fst A) (snd A)
                   (snd (NewsBot.news_loop env before w))))
    /\ NewsBot.news_loop env (before ++ A :: after)%list w
       = (Ok tt,
          fold_left
            (fun w' s => snd (NewsBot.process_rss env (fst s) (snd s) w'))
            (before ++ A :: after)%list w)
    /\ forall ex w0 w1 B id entries urls,
         NewsBot.process_rss_body env (fst A) (snd A) w0 = (Raise ex, w1) ->
         channel_id (snd B) = Some id -> id <> 0%Z ->
         env_get_channel env (now w1) id = true ->
         env_parse env (now w1) (rss_url (snd B)) = Ok entries ->
         (forall n i m, now w1 <= n -> env_send env n i m = Ok tt) ->
         (forall n, now w1 <= n ->
                    env_get_channel env n GLOBAL_CHANNEL_ID = true) ->
         map link (firstn 3 entries) = map Some urls ->
         Forall (fun e => title e <> None) (firstn 3 entries) ->
         NoDup urls ->
         (forall u, In u urls -> DatabaseManager.has_url u (db w1) = false) ->
         exists w2 d,
           NewsBot.news_loop env (A :: B :: after) w0
           = NewsBot.news_loop env after w2
           /\ trace w2 = (trace w1 ++ EvFetch (rss_url (snd B)) :: d)%list
           /\ map url (db w2) = (map url (db w1) ++ urls)%list
           /\ length (posts d) = 2 * length urls
           /\ map fst (sends d)
              = flat_map (fun _ => [id; GLOBAL_CHANNEL_ID]) urls.
Proof.
  intros env before A after w. split; [|split; [|split; [|split]]].
  - intros country config w0. apply BotFacts.process_rss_eq.
  - intros ex w0 w1 E. rewrite !BotFacts.news_loop_eq. simpl.
    rewrite BotFacts.process_rss_eq, E. reflexivity.
  - rewrite !BotFacts.news_loop_eq, fold_left_app. reflexivity.
  - apply BotFacts.news_loop_eq.
  - intros ex w0 w1 B id entries urls E Hc Hid Hch Hfeed Hsend Hglob
           Hlinks Htitles Hnd Hnew.
    destruct (BotFacts.for_each_new_entries_calls env (fst B) id
                (firstn 3 entries) urls (emit (EvFetch (rss_url (snd B))) w1))
      as (w2 & d & E2 & T2 & D2 & P2 & S2 & _);
      try assumption.
    + intros n i m Hn. apply Hsend. rewrite BotFacts.now_emit in Hn. lia.
    + intros n Hn. apply Hglob. rewrite BotFacts.now_emit in Hn. lia.
    + exists w2, d. split; [|split; [|split; [|split]]]; try assumption.
      * assert (W : snd (NewsBot.process_rss env (fst B) (snd B)
                          (snd (NewsBot.process_rss env (fst A) (snd A) w0)))
                    = w2).
        { rewrite (BotFacts.process_rss_eq env (fst A)), E. cbn [snd].
          rewrite BotFacts.process_rss_eq.
          rewrite (BotFacts.process_rss_body_eq env (fst B) (snd B) id w1
                     Hc Hid Hch), Hfeed, E2.
          reflexivity. }
        rewrite !BotFacts.news_loop_eq. cbn [fold_left]. now rewrite W.
      * rewrite T2. cbn [trace emit]. rewrite <- app_assoc. reflexivity.
Qed.

Lemma source_isolation_witness :
  NewsBot.process_rss_body Scenario.feed_A_down "A" (snd Scenario.source_A)
    Scenario.fresh
  = (Raise (Exception "timed out"), emit (EvFetch "FA") Scenario.fresh)
  /\ exists w2 d,
       NewsBot.news_loop Scenario.feed_A_down
         [Scenario.source_A; Scenario.source_B] Scenario.fresh
       = NewsBot.news_loop Scenario.feed_A_down [] w2
       /\ trace w2
          = (trace (emit (EvFetch "FA") Scenario.fresh) ++ EvFetch "FB" :: d)%list
       /\ map url (db w2) = ["u1"]
       /\ length (posts d) = 2
       /\ map fst (sends d) = [9%Z; GLOBAL_CHANNEL_ID].
Proof.
  split; [reflexivity|].
  apply (proj2 (proj2 (proj2 (proj2
           (source_isolation Scenario.feed_A_down [] Scenario.source_A []
              Scenario.fresh))))
           (Exception "timed out") Scenario.fresh
           (emit (EvFetch "FA") Scenario.fresh) Scenario.source_B 9%Z
           [Scenario.item1] ["u1"]);
    try reflexivity; try discriminate;
    try (repeat constructor; simpl; intuition discriminate);
    try (intros u [<-|[]]; reflexivity).
Defined.




(** C7. [query_llm] never fails on what it is called with.  For every text
    and each of its modes, "summary" and "title", the ones its two callers
    pass, it makes one request and returns a text: "Error: <status>" for a
    status other than 200, "LLM Error: <e>" for an exception.  These texts
    flow on instead of raising: the texts returned for a new entry are the
    headline and the key points of the first message sent, and the key
    points are the summary of the row inserted when the entry is processed
    to the end. *)
Theorem query_llm_returns_text :
  forall env w,
    (forall text mode,
        mode = "summary" \/ mode = "title" ->
        exists p s,
          NewsBot.query_llm env text mode w = (Ok s, emit (EvPost p) w)
          /\ (forall response,
                env_post env (now w) p = Ok response ->
                status response <> 200%Z ->
                s = "Error: " ++ str_int (status response))
          /\ (forall e,
                env_post env (now w) p = Raise e ->
                s = "LLM Error: " ++ str_exn e))
    /\ forall country channel entry u t,
         link entry = Some u -> title entry = Some t ->
         DatabaseManager.has_url u (db w) = false ->
         exists k h,
           NewsBot.query_llm env (NewsBot.remove_tags (body_text entry t))
             "summary" w
           = (Ok k, emit (EvPost (summary_request entry t)) w)
           /\ NewsBot.query_llm env t "title"
                (emit (EvPost (summary_request entry t)) w)
              = (Ok h, enriched entry t w)
           /\ hd_error
                (sends (since w (snd (NewsBot.process_entry env country channel
                                        entry w))))
              = Some (channel, NewsBot.format_message h k u)
           /\ forall w1,
                NewsBot.process_entry env country channel entry w = (Ok tt, w1) ->
                db w1 = (db w ++ [{| url := u; summary := k |}])%list.
Proof.
  intros env w. split.
  - intros text mode [->| ->].
    + exists (NewsBot.make_payload NewsBot.summary_instruction text).
      eexists. split; [apply BotFacts.query_llm_summary|].
      split.
      * intros response E Hs. rewrite E. unfold reply_text.
        apply Z.eqb_neq in Hs. now rewrite Hs.
      * intros e E. now rewrite E.
    + exists (NewsBot.make_payload NewsBot.title_instruction text).
      eexists. split; [apply BotFacts.query_llm_title|].
      split.
      * intros response E Hs. rewrite E. unfold reply_text.
        apply Z.eqb_neq in Hs. now rewrite Hs.
      * intros e E. now rewrite E.
  - intros country channel entry u t Hl Ht Hp.
    exists (key_points_at env entry t w), (title_en_at env t w).
    split; [apply BotFacts.query_llm_summary|].
    split.
    { rewrite BotFacts.query_llm_title, BotFacts.now_emit. reflexivity. }
    split.
    { rewrite (BotFacts.process_entry_events env country channel entry u t w Hl Ht Hp).
      rewrite BotFacts.sends_entry_events. reflexivity. }
    intros w1.
    rewrite (BotFacts.process_entry_new env country channel entry u t w Hl Ht Hp).
    cbv zeta.
    destruct (env_send env (now w + 2) channel (message_at env entry u t w))
      as [[]|ex]; [|discriminate].
    destruct (env_get_channel env (now w + 3) GLOBAL_CHANNEL_ID).
    + destruct (env_send env (now w + 3) GLOBAL_CHANNEL_ID
                  (NewsBot.format_global country (message_at env entry u t w)))
        as [[]|ex]; [|discriminate].
      intros [= <-]. reflexivity.
    + intros [= <-]. reflexivity.
Qed.

Lemma query_llm_returns_text_witness :
  exists p,
    NewsBot.query_llm Scenario.failing "T" "title" Scenario.fresh
    = (Ok "Error: 500", emit (EvPost p) Scenario.fresh).
Proof.
  destruct (proj1 (query_llm_returns_text Scenario.failing Scenario.fresh)
              "T" "title" (or_intror eq_refl)) as (p & s & E & Hs & _).
  exists p. rewrite E. f_equal. f_equal.
  destruct (env_post Scenario.failing (now Scenario.fresh) p) as [response|e] eqn:A;
    [|discriminate].
  injection A as <-. apply (Hs _ eq_refl). discriminate.
Defined.

(** C8, as the code has it.  Only the first three entries of a feed are
    looked at: cutting the feed after the third entry changes nothing, and
    one source adds at most three rows in a cycle.  When no exception is
    raised (the entries among the first three have a link and a title and
    Discord accepts the messages) and these entries are new and distinct,
    each of them is processed to the end and recorded, in feed order, and
    nothing else is: three items for a feed of three or more.  An
    exception raised for one entry ends the loop, and the entries after
    it are not looked at in that cycle.  An entry met again in a later
    cycle is passed over if it has been recorded by then. *)
Theorem bounded_work :
  forall env country config w,
    NewsBot.process_rss (truncate_feeds 3 env) country config w
    = NewsBot.process_rss env country config w
    /\ length (db (snd (NewsBot.process_rss env country config w)))
       <= length (db w) + 3
    /\ (forall id entries urls,
          channel_id config = Some id -> id <> 0%Z ->
          env_get_channel env (now w) id = true ->
          env_parse env (now w) (rss_url config) = Ok entries ->
          (forall n i m, env_send env n i m = Ok tt) ->
          map link (firstn 3 entries) = map Some urls ->
          Forall (fun e => title e <> None) (firstn 3 entries) ->
          NoDup urls ->
          (forall u, In u urls -> DatabaseManager.has_url u (db w) = false) ->
          exists w1,
            NewsBot.process_rss env country config w = (Ok tt, w1)
            /\ map url (db w1) = (map url (db w) ++ urls)%list
            /\ length urls = Nat.min 3 (length entries))
    /\ (forall channel entry rest ex w1,
          NewsBot.process_entry env country channel entry w = (Raise ex, w1) ->
          for_each (entry :: rest) (NewsBot.process_entry env country channel) w
          = (Raise ex, w1))
    /\ forall channel entry rest u,
         link entry = Some u ->
         DatabaseManager.has_url u (db w) = true ->
         for_each (entry :: rest) (NewsBot.process_entry env country channel) w
         = for_each rest (NewsBot.process_entry env country channel) w.
Proof.
  intros env country config w. split; [|split; [|split; [|split]]].
  - apply BotFacts.process_rss_truncate.
  - rewrite BotFacts.process_rss_eq. simpl.
    apply BotFacts.process_rss_body_length.
  - intros id entries urls Hc Hid Hch Hfeed Hsend Hlinks Htitles Hnd Hnew.
    rewrite BotFacts.process_rss_eq.
    rewrite (BotFacts.process_rss_body_eq env country config id w Hc Hid Hch), Hfeed.
    destruct (BotFacts.for_each_new_entries env country id Hsend
                (firstn 3 entries) urls (emit (EvFetch (rss_url config)) w)
                Hlinks Htitles Hnd Hnew) as (w1 & E & D).
    exists w1. rewrite E. repeat split; [exact D|].
    apply (f_equal (@length (option string))) in Hlinks.
    rewrite !length_map, length_firstn in Hlinks. congruence.
  - intros channel entry rest ex w1 E. simpl. now apply BotFacts.bind_Raise.
  - intros channel entry rest u Hl Hp.
    now apply (BotFacts.for_each_skips_posted env country channel entry rest u w).
Qed.

Lemma bounded_work_witness :
  length Scenario.feed10 = 10
  /\ exists w1,
       NewsBot.process_rss (Scenario.healthy Scenario.feed10) "X"
         (snd Scenario.source_X) Scenario.fresh = (Ok tt, w1)
       /\ map url (db w1) = ["u0"; "u1"; "u2"].
Proof.
  split; [reflexivity|].
  destruct (proj1 (proj2 (proj2
              (bounded_work (Scenario.healthy Scenario.feed10) "X"
                 (snd Scenario.source_X) Scenario.fresh)))
              Scenario.chan_X Scenario.feed10 ["u0"; "u1"; "u2"])
    as (w1 & E & D & _).
  - reflexivity.
  - discriminate.
  - reflexivity.
  - reflexivity.
  - reflexivity.
  - reflexivity.
  - repeat constructor; discriminate.
  - repeat constructor; simpl; intuition discriminate.
  - reflexivity.
  - exists w1. split; [exact E|exact D].
Defined.

(** C8 fails as stated: the feed returns ten new items and Discord refuses
    the message for the first; the loop ends there, so one item, not
    three, has been taken through the loop when the cycle is over. *)
Lemma refused_delivery_ends_the_loop :
  length Scenario.feed10 = 10
  /\ posts (trace (Scenario.poll Scenario.refusing10 Scenario.fresh))
     = [summary_request (Scenario.item "u0" "T0" "d0") "T0"; title_request "T0"]
  /\ sends (trace (Scenario.poll Scenario.refusing10 Scenario.fresh))
     = [(Scenario.chan_X, NewsBot.format_message "H1" "S1" "u0")]
  /\ db (Scenario.poll Scenario.refusing10 Scenario.fresh) = [].
Proof. vm_compute. repeat split. Qed.

(** C9, as the code has it.  For a new entry two requests are made, in
    this order: one for the summary, whose text is the body of the entry
    with every match of the pattern removed and holds no markup, and one
    for the headline, whose text is the title of the entry as the feed
    gave it. *)
Theorem summary_text_is_stripped :
  forall env country channel entry u t w,
    link entry = Some u -> title entry = Some t ->
    DatabaseManager.has_url u (db w) = false ->
    posts (since w (snd (NewsBot.process_entry env country channel entry w)))
    = [summary_request entry t; title_request t]
    /\ prompt (summary_request entry t)
       = NewsBot.summary_instruction ++ Re.sub_tags (body_text entry t)
    /\ ~ Re.has_markup (Re.sub_tags (body_text entry t))
    /\ prompt (title_request t) = NewsBot.title_instruction ++ t.
Proof.
  intros env country channel entry u t w Hl Ht Hp. repeat split.
  - rewrite (BotFacts.process_entry_events env country channel entry u t w Hl Ht Hp).
    apply BotFacts.posts_entry_events.
  - unfold summary_request, NewsBot.make_payload. cbn [prompt].
    now rewrite ReFacts.remove_tags_sub_tags.
  - apply ReFacts.sub_tags_clean.
Qed.

Lemma summary_text_is_stripped_witness :
  posts (since Scenario.fetched
           (snd (NewsBot.process_entry (Scenario.healthy [Scenario.item_markup])
                   "X" Scenario.chan_X Scenario.item_markup Scenario.fetched)))
  = [NewsBot.make_payload NewsBot.summary_instruction "d";
     NewsBot.make_payload NewsBot.title_instruction "<b>T</b>"].
Proof.
  exact (proj1 (summary_text_is_stripped (Scenario.healthy [Scenario.item_markup])
                  "X" Scenario.chan_X Scenario.item_markup "u2" "<b>T</b>"
                  Scenario.fetched eq_refl eq_refl eq_refl)).
Defined.

(** C9 fails as stated: the title of the entry carries tags and the text
    of the request for the headline carries them too. *)
Lemma title_markup_reaches_backend :
  In (NewsBot.make_payload NewsBot.title_instruction "<b>T</b>")
     (posts (trace (Scenario.poll (Scenario.healthy [Scenario.item_markup])
                      Scenario.fresh)))
  /\ Re.has_markup "<b>T</b>".
Proof.
  split.
  - vm_compute. right. left. reflexivity.
  - exists "", "b", "T</b>". repeat split. discriminate.
Qed.

(** C10. Every message sent for an entry follows the template: to the
    channel of the source, the headline between two pairs of asterisks, an
    empty line, the key points, an empty line and the link; to the shared
    channel, the same text after the identifier of the source in square
    brackets and a space. *)
Theorem message_template :
  forall env country channel entry w id m,
    In (id, m)
       (sends (since w (snd (NewsBot.process_entry env country channel entry w)))) ->
    exists u t,
      link entry = Some u /\ title entry = Some t
      /\ ((id = channel
           /\ m = "**" ++ title_en_at env t w ++ "**" ++ nl ++ nl
                  ++ key_points_at env entry t w ++ nl ++ nl ++ u)
          \/ (id = GLOBAL_CHANNEL_ID
              /\ m = "[" ++ country ++ "] "
                     ++ "**" ++ title_en_at env t w ++ "**" ++ nl ++ nl
                     ++ key_points_at env entry t w ++ nl ++ nl ++ u)).
Proof.
  intros env country channel entry w id m Hin.
  destruct (link entry) as [u|] eqn:Hl;
    [|rewrite BotFacts.process_entry_quiet, BotFacts.since_refl in Hin;
      [contradiction|intros; congruence]].
  destruct (title entry) as [t|] eqn:Ht;
    [|rewrite BotFacts.process_entry_quiet, BotFacts.since_refl in Hin;
      [contradiction|intros; congruence]].
  destruct (DatabaseManager.has_url u (db w)) eqn:Hp;
    [rewrite BotFacts.process_entry_quiet, BotFacts.since_refl in Hin;
     [contradiction|intros; congruence]|].
  exists u, t. split; [reflexivity|split; [reflexivity|]].
  rewrite (BotFacts.process_entry_events env country channel entry u t w Hl Ht Hp)
    in Hin.
  rewrite BotFacts.sends_entry_events in Hin.
  destruct Hin as [[= <- <-]|Hin]; [left; split; reflexivity|].
  destruct (source_delivery env entry u t w channel); [|contradiction].
  destruct (global_found env w); [|contradiction].
  destruct Hin as [[= <- <-]|[]]. right. split; reflexivity.
Qed.

Lemma message_template_witness :
  exists u t,
    link Scenario.item1 = Some u /\ title Scenario.item1 = Some t
    /\ ((GLOBAL_CHANNEL_ID = Scenario.chan_X
         /\ NewsBot.format_global "X" Scenario.message1
            = "**" ++ title_en_at (Scenario.healthy [Scenario.item1]) t Scenario.fetched
              ++ "**" ++ nl ++ nl
              ++ key_points_at (Scenario.healthy [Scenario.item1]) Scenario.item1 t
                   Scenario.fetched
              ++ nl ++ nl ++ u)
        \/ (GLOBAL_CHANNEL_ID = GLOBAL_CHANNEL_ID
            /\ NewsBot.format_global "X" Scenario.message1
               = "[" ++ "X" ++ "] "
                 ++ "**" ++ title_en_at (Scenario.healthy [Scenario.item1]) t
                      Scenario.fetched
                 ++ "**" ++ nl ++ nl
                 ++ key_points_at (Scenario.healthy [Scenario.item1]) Scenario.item1 t
                      Scenario.fetched
                 ++ nl ++ nl ++ u)).
Proof.
  apply (message_template (Scenario.healthy [Scenario.item1]) "X" Scenario.chan_X
           Scenario.item1 Scenario.fetched GLOBAL_CHANNEL_ID
           (NewsBot.format_global "X" Scenario.message1)).
  vm_compute. right. left. reflexivity.
Defined.

(** The end-to-end scenario of the specification: one source "X" whose
    feed holds one new item; the enrichment gives "H1" and "S1". *)
Example end_to_end_scenario :
  sends (trace (Scenario.poll (Scenario.healthy [Scenario.item1]) Scenario.fresh))
  = [(Scenario.chan_X, Scenario.message1);
     (GLOBAL_CHANNEL_ID, "[X] " ++ Scenario.message1)]
  /\ db (Scenario.poll (Scenario.healthy [Scenario.item1]) Scenario.fresh)
     = [{| url := "u1"; summary := "S1" |}]
  /\ since (Scenario.poll (Scenario.healthy [Scenario.item1]) Scenario.fresh)
       (Scenario.poll (Scenario.healthy [Scenario.item1])
          (Scenario.poll (Scenario.healthy [Scenario.item1]) Scenario.fresh))
     = [EvFetch "F"].
Proof. vm_compute. repeat split. Qed.

(** * Further properties of the code *)

(** ** The store *)

Module StoreMore.
Import DatabaseManager.

Lemma run_op_appends t o :
  exists rows, run_op t o = (t ++ rows)%list /\ length rows <= 1.
Proof.
  destruct o as [|u|u s]; simpl.
  - exists []. rewrite app_nil_r. split; [reflexivity|simpl; lia].
  - exists []. rewrite app_nil_r. split; [reflexivity|simpl; lia].
  - rewrite StoreFacts.add_article_eq. simpl. destruct (has_url u t).
    + exists []. rewrite app_nil_r. split; [reflexivity|simpl; lia].
    + eexists. split; [reflexivity|simpl; lia].
Qed.

Lemma find_app_Some {A} (p : A -> bool) l1 l2 r :
  find p l1 = Some r -> find p (l1 ++ l2)%list = Some r.
Proof.
  induction l1 as [|a l1 IH]; simpl; [discriminate|].
  destruct (p a); [trivial|exact IH].
Qed.

End StoreMore.

(** X1. Insert, then look up: after [add_article] for a URL [is_posted]
    answers yes for it, the answer for every other URL is what it was, and
    [is_posted] leaves the table alone. *)
Theorem insert_then_lookup :
  forall (t : Table) (u s v : string),
    fst (DatabaseManager.is_posted u (snd (DatabaseManager.add_article u s t)))
    = Ok true
    /\ (v <> u ->
        fst (DatabaseManager.is_posted v (snd (DatabaseManager.add_article u s t)))
        = fst (DatabaseManager.is_posted v t))
    /\ snd (DatabaseManager.is_posted v t) = t.
Proof.
  intros t u s v. unfold DatabaseManager.is_posted. simpl.
  rewrite StoreFacts.add_article_posted. split; [reflexivity|].
  split; [|reflexivity]. intros Hv.
  rewrite StoreFacts.add_article_eq. simpl.
  destruct (DatabaseManager.has_url u t); [reflexivity|].
  rewrite StoreFacts.has_url_app. simpl.
  apply not_eq_sym in Hv. apply String.eqb_neq in Hv. rewrite Hv.
  now rewrite !orb_false_r.
Qed.

Lemma insert_then_lookup_witness :
  fst (DatabaseManager.is_posted "u2"
         (snd (DatabaseManager.add_article "u1" "S1" [])))
  = fst (DatabaseManager.is_posted "u2" []).
Proof.
  apply (proj1 (proj2 (insert_then_lookup [] "u1" "S1" "u2"))).
  discriminate.
Defined.

(** X2. The first summary stored for a URL is the one that stays:
    [add_article] for a URL that has a row changes nothing, every operation
    of the store leaves the rows it found in place and adds at most one,
    and the row found for a URL is found unchanged after any further
    operations. *)
Theorem first_summary_is_kept :
  forall (t : Table) (u : string) (r : Row),
    find (fun r' => url r' =? u) t = Some r ->
    (forall s, DatabaseManager.add_article u s t = (Ok tt, t))
    /\ (forall o, exists rows,
           DatabaseManager.run_op t o = (t ++ rows)%list /\ length rows <= 1)
    /\ forall ops,
         find (fun r' => url r' =? u) (fold_left DatabaseManager.run_op ops t)
         = Some r.
Proof.
  intros t u r Hfind. split; [|split].
  - intros s. rewrite StoreFacts.add_article_eq.
    assert (H : DatabaseManager.has_url u t = true).
    { unfold DatabaseManager.has_url. apply existsb_exists.
      apply find_some in Hfind. destruct Hfind as [Hin Hu]. now exists r. }
    now rewrite H.
  - apply StoreMore.run_op_appends.
  - intros ops. revert t Hfind. induction ops as [|o ops IH]; intros t Hfind.
    + exact Hfind.
    + simpl. apply IH.
      destruct (StoreMore.run_op_appends t o) as (rows & -> & _).
      now apply StoreMore.find_app_Some.
Qed.

Lemma first_summary_is_kept_witness :
  find (fun r' => url r' =? "u1")
    (fold_left DatabaseManager.run_op
       [DatabaseManager.OpAddArticle "u1" "S2"; DatabaseManager.OpAddArticle "u2" "S3"]
       [{| url := "u1"; summary := "S1" |}])
  = Some {| url := "u1"; summary := "S1" |}.
Proof.
  exact (proj2 (proj2 (first_summary_is_kept
                         [{| url := "u1"; summary := "S1" |}] "u1"
                         {| url := "u1"; summary := "S1" |} eq_refl))
           [DatabaseManager.OpAddArticle "u1" "S2";
            DatabaseManager.OpAddArticle "u2" "S3"]).
Defined.

(** ** Removal of markup *)

Module ReMore.
Import Re.

Lemma sub_scan_clean s : search_tag s = false -> sub_scan 0 s = s.
Proof.
  induction s as [|c r IH]; simpl; [reflexivity|]. intros H.
  apply orb_false_iff in H. destruct H as [Hc Hr].
  destruct (Ascii.eqb c lt_sign); simpl in Hc.
  - destruct (tag_len r); [discriminate|]. now rewrite IH.
  - now rewrite IH.
Qed.

Lemma length_append a b :
  String.length (a ++ b) = String.length a + String.length b.
Proof. induction a as [|c a IH]; simpl; [reflexivity|now rewrite IH]. Qed.

Lemma gt_index_bound r n : gt_index r = Some n -> n < String.length r.
Proof.
  revert n. induction r as [|c r IH]; simpl; intros n H; [discriminate|].
  destruct (Ascii.eqb c gt_sign); [injection H as <-; lia|].
  destruct (gt_index r) as [m|]; [|discriminate]. injection H as <-.
  specialize (IH m eq_refl). lia.
Qed.

(** Skipping [n] characters drops them all. *)
Lemma sub_scan_length n s :
  String.length (sub_scan n s) + Nat.min n (String.length s) <= String.length s.
Proof.
  revert n. induction s as [|c r IH]; intros n; simpl; [lia|].
  destruct n as [|k].
  - assert (K : String.length (sub_scan 0 r) <= String.length r)
      by (specialize (IH 0); lia).
    destruct (Ascii.eqb c lt_sign); [|simpl; lia].
    destruct (tag_len r) as [m|]; [|simpl; lia].
    specialize (IH m). lia.
  - specialize (IH k). lia.
Qed.

Lemma sub_scan_markup s :
  search_tag s = true ->
  String.length (sub_scan 0 s) + 3 <= String.length s.
Proof.
  induction s as [|c r IH]; simpl; [discriminate|]. intros H.
  destruct (Ascii.eqb c lt_sign) eqn:Ec; simpl in H.
  - unfold tag_len in *. destruct (gt_index r) as [[|k]|] eqn:E.
    + simpl. specialize (IH H). lia.
    + pose proof (gt_index_bound _ _ E) as B.
      pose proof (sub_scan_length (S (S k)) r) as L. lia.
    + simpl. specialize (IH H). lia.
  - simpl. specialize (IH H). lia.
Qed.

Lemma sub_scan_plain pre rest :
  contains lt_sign pre = false ->
  sub_scan 0 (pre ++ rest) = pre ++ sub_scan 0 rest.
Proof.
  induction pre as [|c pre IH]; simpl; intros H; [reflexivity|].
  apply orb_false_iff in H. destruct H as [Hc Hp].
  rewrite Hc, (IH Hp). reflexivity.
Qed.

End ReMore.

(** X3. [re.sub] changes a text exactly when the text holds markup, and
    applying it twice gives what applying it once gives. *)
Theorem sub_tags_changes_markup_only :
  forall s : string,
    (Re.sub_tags s = s <-> ~ Re.has_markup s)
    /\ Re.sub_tags (Re.sub_tags s) = Re.sub_tags s.
Proof.
  intros s.
  assert (Clean : forall x, ~ Re.has_markup x -> Re.sub_tags x = x).
  { intros x Hx. apply ReMore.sub_scan_clean.
    destruct (Re.search_tag x) eqn:E; [|reflexivity].
    apply ReFacts.search_tag_spec in E. contradiction. }
  split; [split|].
  - intros E H. rewrite <- E in H. exact (ReFacts.sub_tags_clean s H).
  - apply Clean.
  - apply Clean, ReFacts.sub_tags_clean.
Qed.

(** X4. [re.sub] never makes a text longer, and a text that holds markup
    loses at least three characters. *)
Theorem sub_tags_shortens :
  forall s : string,
    String.length (Re.sub_tags s) <= String.length s
    /\ (Re.has_markup s ->
        String.length (Re.sub_tags s) + 3 <= String.length s).
Proof.
  intros s. split.
  - pose proof (ReMore.sub_scan_length 0 s) as H. unfold Re.sub_tags. lia.
  - intros H. apply ReFacts.search_tag_spec in H.
    now apply ReMore.sub_scan_markup.
Qed.

Lemma sub_tags_shortens_witness :
  String.length (Re.sub_tags "<p>d</p>") + 3 <= String.length "<p>d</p>".
Proof.
  apply (proj2 (sub_tags_shortens "<p>d</p>")).
  exists "", "p", "d</p>". repeat split. discriminate.
Defined.

(** X5. What stands before a tag is kept as it is and the tag is dropped:
    for a text [pre] without [<] and a tag body [x], not empty and without
    [>], the result on [pre<x>rest] is [pre] followed by the result on
    [rest]. *)
Theorem sub_tags_keeps_text :
  forall pre x rest : string,
    contains Re.lt_sign pre = false ->
    x <> EmptyString -> contains Re.gt_sign x = false ->
    Re.sub_tags (pre ++ String Re.lt_sign (x ++ String Re.gt_sign rest))
    = pre ++ Re.sub_tags rest.
Proof.
  intros pre x rest Hpre Hne Hx. unfold Re.sub_tags.
  rewrite (ReMore.sub_scan_plain _ _ Hpre). f_equal.
  now apply ReFacts.sub_tags_match.
Qed.

Lemma sub_tags_keeps_text_witness :
  Re.sub_tags "Rain <b>today</b>" = "Rain " ++ Re.sub_tags "today</b>".
Proof.
  apply (sub_tags_keeps_text "Rain " "b" "today</b>"); try reflexivity.
  discriminate.
Defined.

(** ** The answer of the backend *)

Module StripFacts.

Lemma lstrip_first s c :
  first_char (lstrip s) = Some c -> isspace c = false.
Proof.
  induction s as [|d r IH]; simpl; [discriminate|].
  destruct (isspace d) eqn:E; [exact IH|].
  simpl. now intros [= <-].
Qed.

Lemma rstrip_first s c :
  first_char s = Some c -> isspace c = false ->
  first_char (rstrip s) = Some c.
Proof.
  destruct s as [|d r]; simpl; [discriminate|]. intros [= <-] Hc.
  destruct (rstrip r); [now rewrite Hc|reflexivity].
Qed.

Lemma rstrip_last s c :
  last_char (rstrip s) = Some c -> isspace c = false.
Proof.
  induction s as [|d r IH]; simpl; [discriminate|].
  destruct (rstrip r) as [|e r'] eqn:E.
  - destruct (isspace d) eqn:Hd; simpl; [discriminate|].
    now intros [= <-].
  - exact IH.
Qed.

Lemma strip_first s c : first_char (strip s) = Some c -> isspace c = false.
Proof.
  unfold strip. destruct (lstrip s) as [|d r] eqn:E; [discriminate|].
  assert (Hd : isspace d = false) by (apply (lstrip_first s); now rewrite E).
  rewrite (rstrip_first (String d r) d eq_refl Hd). now intros [= <-].
Qed.

Lemma strip_last s c : last_char (strip s) = Some c -> isspace c = false.
Proof. apply rstrip_last. Qed.

Lemma dict_get_absent d k default :
  (forall v, ~ In (k, v) d) -> dict_get d k default = default.
Proof.
  induction d as [|[k' v'] d IH]; simpl; intros H; [reflexivity|].
  destruct (k' =? k) eqn:E.
  - apply String.eqb_eq in E. subst k'. exfalso. apply (H v'). now left.
  - apply IH. intros v Hin. apply (H v). now right.
Qed.

End StripFacts.

(** X6. When the backend answers with status 200, [query_llm] returns the
    field [response] of the body without white space at either end, and
    the empty text when the body has no such field; a body that cannot be
    read gives the text "LLM Error: <e>". *)
Theorem reply_is_trimmed :
  forall env text mode w response,
    mode = "summary" \/ mode = "title" ->
    env_post env (now w)
      (NewsBot.make_payload
         (if mode =? "summary" then NewsBot.summary_instruction
          else NewsBot.title_instruction) text)
    = Ok response ->
    status response = 200%Z ->
    exists r,
      fst (NewsBot.query_llm env text mode w) = Ok r
      /\ (forall data,
            json response = Ok data ->
            r = strip (dict_get data "response" "")
            /\ (forall c, first_char r = Some c -> isspace c = false)
            /\ (forall c, last_char r = Some c -> isspace c = false)
            /\ ((forall v, ~ In ("response", v) data) -> r = ""))
      /\ (forall e, json response = Raise e -> r = "LLM Error: " ++ str_exn e).
Proof.
  intros env text mode w response Hmode Hpost Hstatus.
  assert (R : forall a, a = Ok response ->
              (forall data,
                  json response = Ok data ->
                  reply_text a = strip (dict_get data "response" "")
                  /\ (forall c, first_char (reply_text a) = Some c ->
                                isspace c = false)
                  /\ (forall c, last_char (reply_text a) = Some c ->
                                isspace c = false)
                  /\ ((forall v, ~ In ("response", v) data) -> reply_text a = ""))
              /\ (forall e, json response = Raise e ->
                            reply_text a = "LLM Error: " ++ str_exn e)).
  { intros a ->. unfold reply_text. rewrite Hstatus. cbn [Z.eqb Pos.eqb].
    split.
    - intros data ->. repeat split.
      + apply StripFacts.strip_first.
      + apply StripFacts.strip_last.
      + intros H. now rewrite StripFacts.dict_get_absent.
    - now intros e ->. }
  destruct Hmode as [->| ->].
  - rewrite BotFacts.query_llm_summary. eexists. split; [reflexivity|].
    apply R, Hpost.
  - rewrite BotFacts.query_llm_title. eexists. split; [reflexivity|].
    apply R, Hpost.
Qed.

Lemma reply_is_trimmed_witness :
  exists r,
    fst (NewsBot.query_llm (Scenario.healthy []) "T" "title" Scenario.fresh) = Ok r
    /\ r = "H1".
Proof.
  destruct (reply_is_trimmed (Scenario.healthy []) "T" "title" Scenario.fresh
              {| status := 200; json := Ok [("response", "H1")] |}
              (or_intror eq_refl)) as (r & E & Hdata & _).
  - reflexivity.
  - reflexivity.
  - exists r. split; [exact E|]. exact (proj1 (Hdata _ eq_refl)).
Defined.

(** ** The cycle: calls made, rows inserted *)

Module CycleFacts.
Import NewsBot.

Lemma within_refl w : within [] 0 w w.
Proof.
  exists [], []. rewrite !app_nil_r. repeat split; simpl; lia.
Qed.

Lemma within_trans fs1 n1 fs2 n2 w w1 w2 :
  within fs1 n1 w w1 -> within fs2 n2 w1 w2 ->
  within (fs1 ++ fs2)%list (n1 + n2) w w2.
Proof.
  intros (d1 & r1 & T1 & D1 & F1 & P1 & S1 & Z1 & L1)
         (d2 & r2 & T2 & D2 & F2 & P2 & S2 & Z2 & L2).
  exists (d1 ++ d2)%list, (r1 ++ r2)%list.
  rewrite T2, T1, D2, D1, !app_assoc.
  rewrite BotFacts.fetches_app, BotFacts.posts_app, BotFacts.sends_app, BotFacts.sleeps_app, !length_app.
  rewrite F1, F2, Z1, Z2, repeat_app.
  repeat split; lia.
Qed.

Lemma within_more fs n m w w' : n <= m -> within fs n w w' -> within fs m w w'.
Proof.
  intros H (d & r & T & D & F & P & S & Z & L).
  exists d, r. repeat split; try assumption; lia.
Qed.

Lemma within_emit_fetch u w : within [u] 0 w (emit (EvFetch u) w).
Proof.
  exists [EvFetch u], []. simpl. rewrite app_nil_r. repeat split; lia.
Qed.

Section Facts.

Variable env : Env.

Lemma process_entry_within country channel entry w :
  within [] 1 w (snd (process_entry env country channel entry w)).
Proof.
  destruct (link entry) as [u|] eqn:Hl;
    [|rewrite BotFacts.process_entry_no_link by assumption;
      apply (within_more [] 0 1); [lia|apply within_refl]].
  destruct (DatabaseManager.has_url u (db w)) eqn:Hp;
    [rewrite (BotFacts.process_entry_posted env _ _ _ u) by assumption;
     apply (within_more [] 0 1); [lia|apply within_refl]|].
  destruct (title entry) as [t|] eqn:Ht;
    [|rewrite (BotFacts.process_entry_no_title env _ _ _ u) by assumption;
      apply (within_more [] 0 1); [lia|apply within_refl]].
  rewrite (BotFacts.process_entry_new env country channel entry u t w Hl Ht Hp).
  cbv zeta.
  destruct (env_send env (now w + 2) channel (message_at env entry u t w))
    as [[]|ex];
    [destruct (env_get_channel env (now w + 3) GLOBAL_CHANNEL_ID);
     [destruct (env_send env (now w + 3) GLOBAL_CHANNEL_ID
                  (format_global country (message_at env entry u t w)))
        as [[]|ex]|]|].
  - exists [EvPost (summary_request entry t); EvPost (title_request t);
            EvSend channel (message_at env entry u t w);
            EvSend GLOBAL_CHANNEL_ID
              (format_global country (message_at env entry u t w));
            EvSleep 3],
           [{| url := u; summary := key_points_at env entry t w |}].
    cbn [snd trace db emit record enriched]. rewrite <- !app_assoc.
    repeat split; simpl; lia.
  - exists [EvPost (summary_request entry t); EvPost (title_request t);
            EvSend channel (message_at env entry u t w);
            EvSend GLOBAL_CHANNEL_ID
              (format_global country (message_at env entry u t w))],
           [].
    cbn [snd trace db emit record enriched]. rewrite <- !app_assoc, app_nil_r.
    repeat split; simpl; lia.
  - exists [EvPost (summary_request entry t); EvPost (title_request t);
            EvSend channel (message_at env entry u t w); EvSleep 3],
           [{| url := u; summary := key_points_at env entry t w |}].
    cbn [snd trace db emit record enriched]. rewrite <- !app_assoc.
    repeat split; simpl; lia.
  - exists [EvPost (summary_request entry t); EvPost (title_request t);
            EvSend channel (message_at env entry u t w)],
           [].
    cbn [snd trace db emit record enriched]. rewrite <- !app_assoc, app_nil_r.
    repeat split; simpl; lia.
Qed.

Lemma for_each_within country channel entries w :
  within [] (length entries) w
    (snd (for_each entries (process_entry env country channel) w)).
Proof.
  revert w. induction entries as [|e es IH]; intros w.
  - apply within_refl.
  - simpl. unfold bind.
    pose proof (process_entry_within country channel e w) as H.
    destruct (process_entry env country channel e w) as [[[]|ex] w1];
      simpl in H.
    + apply (within_trans [] 1 [] (length es) w w1); [exact H|apply IH].
    + apply (within_more [] 1); [lia|exact H].
Qed.

Lemma process_rss_within country config w :
  exists fs,
    within fs 3 w (snd (process_rss env country config w))
    /\ fs = match channel_id config with
            | Some id =>
                if configured config && env_get_channel env (now w) id
                then [rss_url config] else []
            | None => []
            end.
Proof.
  rewrite BotFacts.process_rss_eq. cbn [snd].
  unfold configured, process_rss_body.
  assert (Q : within [] 3 w w)
    by (apply (within_more [] 0); [lia|apply within_refl]).
  destruct (channel_id config) as [id|]; [|exists []; now split].
  destruct (id =? 0)%Z; cbn [negb andb]; [exists []; now split|].
  unfold bind at 1. unfold get_channel at 1.
  destruct (env_get_channel env (now w) id); cbn [negb];
    [|exists []; now split].
  exists [rss_url config]. split; [|reflexivity].
  unfold bind, get_feed, external.
  destruct (env_parse env (now w) (rss_url config)) as [[|e es]|ex];
    cbn [snd].
  - apply (within_more [rss_url config] 0); [lia|apply within_emit_fetch].
  - apply (within_trans [rss_url config] 0 [] 3 w
             (emit (EvFetch (rss_url config)) w));
      [apply within_emit_fetch|].
    apply (within_more [] (length (firstn 3 (e :: es))));
      [rewrite length_firstn; lia|apply for_each_within].
  - apply (within_more [rss_url config] 0); [lia|apply within_emit_fetch].
Qed.

Lemma news_loop_within sources w :
  exists fs,
    within fs (3 * length sources) w (snd (news_loop env sources w))
    /\ length fs <= length sources
    /\ ((forall t id, env_get_channel env t id = true) ->
        fs = map (fun s => rss_url (snd s))
               (filter (fun s => configured (snd s)) sources)).
Proof.
  rewrite BotFacts.news_loop_eq. cbn [snd]. revert w.
  induction sources as [|[country config] rest IH]; intros w.
  - exists []. split; [apply within_refl|]. split; [simpl; lia|reflexivity].
  - cbn [fold_left fst snd].
    destruct (process_rss_within country config w) as (fs1 & W1 & F1).
    destruct (IH (snd (process_rss env country config w)))
      as (fs2 & W2 & L2 & F2).
    exists (fs1 ++ fs2)%list. split; [|split].
    + apply (within_more (fs1 ++ fs2)%list (3 + 3 * length rest));
        [simpl; lia|].
      now apply (within_trans fs1 3 fs2 (3 * length rest) w
                   (snd (process_rss env country config w))).
    + rewrite length_app. subst fs1.
      destruct (channel_id config);
        [destruct (configured config && env_get_channel env (now w) z)|];
        simpl; lia.
    + intros Hch. rewrite (F2 Hch). subst fs1. cbn [filter snd].
      unfold configured.
      destruct (channel_id config) as [id|]; [|reflexivity].
      rewrite Hch, andb_true_r.
      destruct (negb (id =? 0)%Z); reflexivity.
Qed.

(** Distinct URLs stay distinct. *)
Lemma process_entry_NoDup country channel entry w :
  NoDup (map url (db w)) ->
  NoDup (map url (db (snd (process_entry env country channel entry w)))).
Proof.
  intros H.
  destruct (BotFacts.process_entry_db env country channel entry w)
    as [E|(u & k & _ & Hp & E & _)]; rewrite E; [assumption|].
  rewrite map_app. simpl. apply NoDup_app; [assumption| |].
  - constructor; [intros []|constructor].
  - intros a Ha [<-|[]]. apply StoreFacts.has_url_In in Ha. congruence.
Qed.

Lemma for_each_NoDup country channel entries w :
  NoDup (map url (db w)) ->
  NoDup (map url (db (snd (for_each entries (process_entry env country channel) w)))).
Proof.
  revert w. induction entries as [|e es IH]; intros w H; [assumption|].
  simpl. unfold bind.
  pose proof (process_entry_NoDup country channel e w H) as H1.
  destruct (process_entry env country channel e w) as [[[]|ex] w1];
    simpl in H1; [now apply IH|assumption].
Qed.

Lemma process_rss_NoDup country config w :
  NoDup (map url (db w)) ->
  NoDup (map url (db (snd (process_rss env country config w)))).
Proof.
  intros H. rewrite BotFacts.process_rss_eq. cbn [snd].
  destruct (BotFacts.process_rss_body_cases env country config w)
    as [[_ E]|(id & Hc & Hid & Hch)]; [now rewrite E|].
  rewrite (BotFacts.process_rss_body_eq env country config id w Hc Hid Hch).
  destruct (env_parse env (now w) (rss_url config)) as [entries|ex];
    [|assumption].
  now apply for_each_NoDup.
Qed.

Lemma news_loop_NoDup sources w :
  NoDup (map url (db w)) ->
  NoDup (map url (db (snd (news_loop env sources w)))).
Proof.
  rewrite BotFacts.news_loop_eq. cbn [snd]. revert w.
  induction sources as [|s rest IH]; intros w H; [assumption|].
  simpl. apply IH. now apply process_rss_NoDup.
Qed.

(** The task: [n] cycles, one after the other. *)
Lemma run_step sources k w :
  run env sources (S k) w = run env sources k (snd (news_loop env sources w)).
Proof.
  cbn [run]. unfold bind. rewrite BotFacts.news_loop_eq. reflexivity.
Qed.

Lemma run_Ok sources n w : fst (run env sources n w) = Ok tt.
Proof.
  revert w. induction n as [|k IH]; intros w; [reflexivity|].
  rewrite run_step. apply IH.
Qed.

Lemma run_keeps sources n w : keeps_posted w (snd (run env sources n w)).
Proof.
  revert w. induction n as [|k IH]; intros w.
  - apply BotFacts.keeps_posted_refl.
  - rewrite run_step.
    eapply BotFacts.keeps_posted_trans; [apply BotFacts.news_loop_keeps|apply IH].
Qed.

Lemma run_NoDup sources n w :
  NoDup (map url (db w)) -> NoDup (map url (db (snd (run env sources n w)))).
Proof.
  revert w. induction n as [|k IH]; intros w H; [assumption|].
  rewrite run_step. apply IH. now apply news_loop_NoDup.
Qed.

Lemma run_appends sources n w :
  exists rows, db (snd (run env sources n w)) = (db w ++ rows)%list.
Proof.
  revert w. induction n as [|k IH]; intros w.
  - exists []. simpl. now rewrite app_nil_r.
  - rewrite run_step.
    destruct (news_loop_within sources w) as (fs & (d & r & _ & D & _) & _).
    destruct (IH (snd (news_loop env sources w))) as (rows & E).
    exists (r ++ rows)%list. now rewrite E, D, app_assoc.
Qed.

End Facts.
End CycleFacts.

(** X7. A source that is not to be polled costs nothing: when its channel
    id is absent or 0, or the client does not know the channel, [process_rss]
    returns at once; no feed is fetched and the world is as it was. *)
Theorem inert_source :
  forall env country config w,
    configured config = false
    \/ (exists id, channel_id config = Some id
                   /\ env_get_channel env (now w) id = false) ->
    NewsBot.process_rss env country config w = (Ok tt, w).
Proof.
  intros env country config w H. rewrite BotFacts.process_rss_eq. f_equal.
  unfold NewsBot.process_rss_body. unfold configured in H.
  destruct (channel_id config) as [id|]; [|reflexivity].
  destruct (id =? 0)%Z; [reflexivity|].
  destruct H as [H|(id' & [= <-] & H)]; [discriminate|].
  unfold bind, NewsBot.get_channel. now rewrite H.
Qed.

Lemma inert_source_witness :
  NewsBot.process_rss (Scenario.healthy [Scenario.item1]) "ZZ"
    {| channel_id := Some 0%Z; rss_url := "F" |} Scenario.fresh
  = (Ok tt, Scenario.fresh).
Proof.
  apply inert_source. left. reflexivity.
Defined.

(** X8. A feed that cannot be fetched, or that comes back without entries,
    ends the source for this cycle: the fetch is the only call made and
    the table is untouched. *)
Theorem empty_or_failed_feed :
  forall env country config id w,
    channel_id config = Some id -> id <> 0%Z ->
    env_get_channel env (now w) id = true ->
    (exists ex, env_parse env (now w) (rss_url config) = Raise ex)
    \/ env_parse env (now w) (rss_url config) = Ok [] ->
    NewsBot.process_rss env country config w
    = (Ok tt, emit (EvFetch (rss_url config)) w).
Proof.
  intros env country config id w Hc Hid Hch H.
  rewrite BotFacts.process_rss_eq. f_equal.
  rewrite (BotFacts.process_rss_body_eq env country config id w Hc Hid Hch).
  destruct H as [(ex & ->)| ->]; reflexivity.
Qed.

Lemma empty_or_failed_feed_witness :
  NewsBot.process_rss Scenario.feed_A_down "A" (snd Scenario.source_A)
    Scenario.fresh
  = (Ok tt, emit (EvFetch "FA") Scenario.fresh).
Proof.
  apply (empty_or_failed_feed Scenario.feed_A_down "A" (snd Scenario.source_A) 8);
    try reflexivity.
  - discriminate.
  - left. exists (Exception "timed out"). reflexivity.
Defined.

(** X9. An entry that cannot be read ends the source for this cycle.
    When the first entry of the feed has no link, or is new and has no
    title, reading the attribute raises before any request is made, and
    neither this entry nor the ones after it are enriched, delivered or
    recorded. *)
Theorem malformed_entry_ends_source :
  forall env country config id w entry rest,
    channel_id config = Some id -> id <> 0%Z ->
    env_get_channel env (now w) id = true ->
    env_parse env (now w) (rss_url config) = Ok (entry :: rest) ->
    link entry = None
    \/ (exists u, link entry = Some u
                  /\ DatabaseManager.has_url u (db w) = false
                  /\ title entry = None) ->
    NewsBot.process_rss env country config w
    = (Ok tt, emit (EvFetch (rss_url config)) w).
Proof.
  intros env country config id w entry rest Hc Hid Hch Hfeed H.
  rewrite BotFacts.process_rss_eq. f_equal.
  rewrite (BotFacts.process_rss_body_eq env country config id w Hc Hid Hch), Hfeed.
  cbn [firstn for_each].
  destruct H as [Hl|(u & Hl & Hp & Ht)].
  - now rewrite (BotFacts.bind_Raise _ _ _ _ _
                   (BotFacts.process_entry_no_link env country id entry
                      (emit (EvFetch (rss_url config)) w) Hl)).
  - now rewrite (BotFacts.bind_Raise _ _ _ _ _
                   (BotFacts.process_entry_no_title env country id entry u
                      (emit (EvFetch (rss_url config)) w) Hl Ht Hp)).
Qed.

Lemma malformed_entry_ends_source_witness :
  NewsBot.process_rss
    (Scenario.healthy
       [{| link := None; title := Some "T"; description := Some "d";
           entry_summary := None |}; Scenario.item1])
    "X" (snd Scenario.source_X) Scenario.fresh
  = (Ok tt, Scenario.fetched).
Proof.
  apply (malformed_entry_ends_source
           (Scenario.healthy
              [{| link := None; title := Some "T"; description := Some "d";
                  entry_summary := None |}; Scenario.item1])
           "X" (snd Scenario.source_X) Scenario.chan_X Scenario.fresh
           {| link := None; title := Some "T"; description := Some "d";
              entry_summary := None |} [Scenario.item1]);
    try reflexivity.
  - discriminate.
  - left. reflexivity.
Defined.

(** X10. The link alone identifies an item.  Once an entry has been
    processed to the end, any entry with the same link, whatever its title
    and text and whichever source presents it, is passed over without a
    request, a delivery or a row. *)
Theorem dedup_key_is_link :
  forall env country channel entry u w w1 entry',
    link entry = Some u ->
    NewsBot.process_entry env country channel entry w = (Ok tt, w1) ->
    link entry' = Some u ->
    forall env' country' channel',
      NewsBot.process_entry env' country' channel' entry' w1 = (Ok tt, w1).
Proof.
  intros env country channel entry u w w1 entry' Hl E Hl' env' country' channel'.
  apply (BotFacts.process_entry_posted env' country' channel' entry' u w1 Hl').
  exact (BotFacts.process_entry_Ok_posted env country channel entry u w w1 Hl E).
Qed.

Lemma dedup_key_is_link_witness :
  NewsBot.process_entry (Scenario.healthy [Scenario.item1]) "B" 9
    (Scenario.item "u1" "Another title" "<p>another text</p>")
    (Scenario.poll (Scenario.healthy [Scenario.item1]) Scenario.fresh)
  = (Ok tt, Scenario.poll (Scenario.healthy [Scenario.item1]) Scenario.fresh).
Proof.
  apply (dedup_key_is_link (Scenario.healthy [Scenario.item1]) "X"
           Scenario.chan_X Scenario.item1 "u1" Scenario.fetched
           (Scenario.poll (Scenario.healthy [Scenario.item1]) Scenario.fresh)
           (Scenario.item "u1" "Another title" "<p>another text</p>")
           eq_refl);
    [vm_compute|]; reflexivity.
Defined.

Module ConnectionFacts.
Import Connection.

(** With nothing pending, an operation leaves nothing pending, and what
    the connection sees afterwards is what the operation does to the
    table. *)
Lemma run_op_committed c o :
  pending c = [] ->
  pending (run_op c o) = []
  /\ rows (run_op c o) = DatabaseManager.run_op (rows c) o.
Proof.
  intros P. destruct o as [|u|u s]; cbn [run_op DatabaseManager.run_op].
  - unfold create_table, commit, rows. cbn. rewrite P, !app_nil_r.
    split; reflexivity.
  - unfold is_posted. cbn. split; [exact P|reflexivity].
  - rewrite StoreFacts.add_article_eq. cbn [snd].
    unfold add_article, try_except, bind, execute_insert, commit.
    destruct (DatabaseManager.has_url u (rows c)); cbn.
    + split; [exact P|reflexivity].
    + unfold rows. cbn. rewrite P, !app_nil_r. cbn.
      split; reflexivity.
Qed.

Lemma run_ops_committed ops :
  forall c,
    pending c = [] ->
    pending (fold_left run_op ops c) = []
    /\ rows (fold_left run_op ops c)
       = fold_left DatabaseManager.run_op ops (rows c).
Proof.
  induction ops as [|o ops IH]; intros c P; [split; [exact P|reflexivity]|].
  cbn [fold_left]. destruct (run_op_committed c o P) as [P' R'].
  destruct (IH (run_op c o) P') as [P'' R'']. split; [exact P''|].
  now rewrite R'', R'.
Qed.

End ConnectionFacts.

(** X11. What is recorded survives a restart.  [add_article] commits what
    it inserts before it returns, so between two operations of the store
    nothing is pending: whenever the process ends, the file keeps every
    row the connection saw, the rows are those the operations give on the
    table, and a bot started again on that file passes over every entry
    whose link was recorded. *)
Theorem committed_rows_survive_restart :
  forall (file : Table) (ops : list DatabaseManager.op),
    Connection.pending (fold_left Connection.run_op ops (Connection.connect file))
    = []
    /\ Connection.file_left
         (fold_left Connection.run_op ops (Connection.connect file))
       = Connection.rows
           (fold_left Connection.run_op ops (Connection.connect file))
    /\ Connection.rows
         (fold_left Connection.run_op ops (Connection.connect file))
       = fold_left DatabaseManager.run_op ops file
    /\ forall entry u env country channel,
         link entry = Some u ->
         DatabaseManager.has_url u
           (Connection.rows
              (fold_left Connection.run_op ops (Connection.connect file)))
         = true ->
         NewsBot.process_entry env country channel entry
           (start (Some (Connection.file_left
                           (fold_left Connection.run_op ops
                              (Connection.connect file)))))
         = (Ok tt,
            start (Some (Connection.file_left
                           (fold_left Connection.run_op ops
                              (Connection.connect file))))).
Proof.
  intros file ops.
  destruct (ConnectionFacts.run_ops_committed ops (Connection.connect file)
              eq_refl) as [P R].
  assert (F : Connection.file_left
                (fold_left Connection.run_op ops (Connection.connect file))
              = Connection.rows
                  (fold_left Connection.run_op ops (Connection.connect file))).
  { unfold Connection.file_left, Connection.rows. now rewrite P, app_nil_r. }
  split; [exact P|]. split; [exact F|]. split.
  - rewrite R. unfold Connection.rows, Connection.connect. cbn.
    now rewrite app_nil_r.
  - intros entry u env country channel Hl Hp.
    apply (BotFacts.process_entry_posted env country channel entry u _ Hl).
    cbn [start db DatabaseManager.create_table]. now rewrite F.
Qed.

Lemma committed_rows_survive_restart_witness :
  NewsBot.process_entry (Scenario.healthy [Scenario.item1]) "X" Scenario.chan_X
    Scenario.item1
    (start (Some (Connection.file_left
                    (fold_left Connection.run_op
                       [DatabaseManager.OpAddArticle "u1" "S1"]
                       (Connection.connect [])))))
  = (Ok tt,
     start (Some (Connection.file_left
                    (fold_left Connection.run_op
                       [DatabaseManager.OpAddArticle "u1" "S1"]
                       (Connection.connect []))))).
Proof.
  apply (proj2 (proj2 (proj2 (committed_rows_survive_restart []
                                [DatabaseManager.OpAddArticle "u1" "S1"])))
           Scenario.item1 "u1");
    reflexivity.
Defined.

(** X12. The cost of a cycle is bounded by the size of the registry: at
    most one fetch, six requests to the generation backend, six deliveries
    and three pauses per source, and at most three new rows per source. *)
Theorem cycle_cost_is_bounded :
  forall env sources w,
    length (fetches (since w (snd (NewsBot.news_loop env sources w))))
    <= length sources
    /\ length (posts (since w (snd (NewsBot.news_loop env sources w))))
       <= 6 * length sources
    /\ length (sends (since w (snd (NewsBot.news_loop env sources w))))
       <= 6 * length sources
    /\ length (sleeps (since w (snd (NewsBot.news_loop env sources w))))
       <= 3 * length sources
    /\ length (db (snd (NewsBot.news_loop env sources w)))
       <= length (db w) + 3 * length sources.
Proof.
  intros env sources w.
  destruct (CycleFacts.news_loop_within env sources w)
    as (fs & (d & r & T & D & F & P & S & Z & L) & Lfs & _).
  rewrite (BotFacts.since_app _ _ _ T), D, F, Z, length_app, repeat_length.
  repeat split; lia.
Qed.

(** X13. Every row inserted in a cycle is followed by one pause, of three
    seconds, and there is no other pause. *)
Theorem pause_after_each_record :
  forall env sources w,
    sleeps (since w (snd (NewsBot.news_loop env sources w)))
    = repeat 3 (length (db (snd (NewsBot.news_loop env sources w)))
                - length (db w)).
Proof.
  intros env sources w.
  destruct (CycleFacts.news_loop_within env sources w)
    as (fs & (d & r & T & D & F & P & S & Z & L) & _).
  rewrite (BotFacts.since_app _ _ _ T), D, Z, length_app. f_equal. lia.
Qed.

(** X14. The task never stops on an exception and the table only grows:
    after any number of cycles the rows found at the start are still there,
    in place and unchanged, new rows come after them, and URLs that were
    pairwise distinct still are. *)
Theorem table_only_grows :
  forall env sources n w,
    fst (run env sources n w) = Ok tt
    /\ (exists rows, db (snd (run env sources n w)) = (db w ++ rows)%list)
    /\ (NoDup (map url (db w)) ->
        NoDup (map url (db (snd (run env sources n w))))).
Proof.
  intros env sources n w. split; [|split].
  - apply CycleFacts.run_Ok.
  - apply CycleFacts.run_appends.
  - apply CycleFacts.run_NoDup.
Qed.

Lemma table_only_grows_witness :
  NoDup (map url (db (snd (run (Scenario.healthy Scenario.feed10)
                             [Scenario.source_X] 3 Scenario.fresh)))).
Proof.
  apply (proj2 (proj2 (table_only_grows (Scenario.healthy Scenario.feed10)
                         [Scenario.source_X] 3 Scenario.fresh))).
  constructor.
Defined.

(** X15. When the client knows every channel, a cycle fetches the feed of
    each source that has a channel id, once, in the order of the registry,
    whatever happens to the sources before it. *)
Theorem one_fetch_per_source :
  forall env sources w,
    (forall t id, env_get_channel env t id = true) ->
    fetches (since w (snd (NewsBot.news_loop env sources w)))
    = map (fun s => rss_url (snd s))
        (filter (fun s => configured (snd s)) sources).
Proof.
  intros env sources w Hch.
  destruct (CycleFacts.news_loop_within env sources w)
    as (fs & (d & r & T & D & F & _) & _ & Hfs).
  rewrite (BotFacts.since_app _ _ _ T), F. now apply Hfs.
Qed.

Lemma one_fetch_per_source_witness :
  fetches (since Scenario.fresh
             (snd (NewsBot.news_loop Scenario.feed_A_down NEWS_SOURCES
                     Scenario.fresh)))
  = map (fun s => rss_url (snd s)) NEWS_SOURCES.
Proof.
  apply (one_fetch_per_source Scenario.feed_A_down NEWS_SOURCES Scenario.fresh).
  reflexivity.
Defined.

(** X16. A missing shared channel is not a failure: when the delivery to
    the channel of the source returns and the client does not know the
    shared channel, the entry is recorded after that single delivery. *)
Theorem missing_shared_channel_is_skipped :
  forall env country channel entry u t w,
    link entry = Some u -> title entry = Some t ->
    DatabaseManager.has_url u (db w) = false ->
    source_delivery env entry u t w channel = Ok tt ->
    global_found env w = false ->
    exists w1,
      NewsBot.process_entry env country channel entry w = (Ok tt, w1)
      /\ sends (since w w1) = [(channel, message_at env entry u t w)]
      /\ db w1
         = (db w ++ [{| url := u; summary := key_points_at env entry t w |}])%list.
Proof.
  intros env country channel entry u t w Hl Ht Hp Hs Hg.
  pose proof (BotFacts.process_entry_events env country channel entry u t w
                Hl Ht Hp) as Ev.
  revert Ev.
  rewrite (BotFacts.process_entry_new env country channel entry u t w Hl Ht Hp).
  cbv zeta. unfold source_delivery in Hs. unfold global_found in Hg.
  rewrite Hs, Hg. intros Ev. eexists. split; [reflexivity|]. split.
  - cbn [snd] in Ev. rewrite Ev, BotFacts.sends_entry_events.
    unfold source_delivery, global_found. now rewrite Hs, Hg.
  - reflexivity.
Qed.

Lemma missing_shared_channel_is_skipped_witness :
  exists w1,
    NewsBot.process_entry
      {| env_get_channel := fun _ id => (id =? Scenario.chan_X)%Z;
         env_parse := fun _ _ => Ok [Scenario.item1];
         env_post := fun _ p => Scenario.enrich p;
         env_send := fun _ _ _ => Ok tt |}
      "X" Scenario.chan_X Scenario.item1 Scenario.fetched = (Ok tt, w1)
    /\ db w1 = [{| url := "u1"; summary := "S1" |}].
Proof.
  destruct (missing_shared_channel_is_skipped
              {| env_get_channel := fun _ id => (id =? Scenario.chan_X)%Z;
                 env_parse := fun _ _ => Ok [Scenario.item1];
                 env_post := fun _ p => Scenario.enrich p;
                 env_send := fun _ _ _ => Ok tt |}
              "X" Scenario.chan_X Scenario.item1 "u1" "T" Scenario.fetched
              eq_refl eq_refl eq_refl eq_refl eq_refl)
    as (w1 & E & _ & D).
  exists w1. split; [exact E|exact D].
Defined.

(** X17. The table holds nothing but links of entries: a URL recorded
    after a source has been processed was recorded before, or is the link
    of one of the first three entries of the feed fetched for the
    source. *)
Theorem records_only_feed_links :
  forall env country config w v,
    DatabaseManager.has_url v
      (db (snd (NewsBot.process_rss env country config w))) = true ->
    DatabaseManager.has_url v (db w) = true
    \/ exists entries,
         env_parse env (now w) (rss_url config) = Ok entries
         /\ In (Some v) (map link (firstn 3 entries)).
Proof.
  intros env country config w v.
  assert (Loop : forall channel entries w0,
             DatabaseManager.has_url v
               (db (snd (for_each entries
                           (NewsBot.process_entry env country channel) w0)))
             = true ->
             DatabaseManager.has_url v (db w0) = true
             \/ In (Some v) (map link entries)).
  { intros channel. induction entries as [|e es IH]; intros w0 H.
    - now left.
    - simpl in H. unfold bind in H.
      pose proof (BotFacts.process_entry_db env country channel e w0) as Hdb.
      cbv zeta in Hdb.
      destruct (NewsBot.process_entry env country channel e w0)
        as [[[]|ex] w1]; cbn [fst snd] in Hdb, H.
      + destruct (IH w1 H) as [H1|H1]; [|right; now right].
        destruct Hdb as [E|(u & k & Hl & _ & E & _)]; rewrite E in H1;
          [now left|].
        rewrite StoreFacts.has_url_app in H1. apply orb_true_iff in H1.
        destruct H1 as [H1|H1]; [now left|]. right. left.
        simpl in H1. rewrite orb_false_r in H1. apply String.eqb_eq in H1.
        now subst v.
      + destruct Hdb as [E|(u & k & _ & _ & _ & Habs)];
          [rewrite E in H; now left|discriminate]. }
  rewrite BotFacts.process_rss_eq. cbn [snd].
  destruct (BotFacts.process_rss_body_cases env country config w)
    as [[_ E]|(id & Hc & Hid & Hch)]; [rewrite E; now left|].
  rewrite (BotFacts.process_rss_body_eq env country config id w Hc Hid Hch).
  destruct (env_parse env (now w) (rss_url config)) as [entries|ex];
    [|now left].
  intros H. destruct (Loop id _ _ H) as [H1|H1]; [now left|].
  right. now exists entries.
Qed.

Lemma records_only_feed_links_witness :
  DatabaseManager.has_url "u1" (db Scenario.fresh) = true
  \/ exists entries,
       env_parse (Scenario.healthy [Scenario.item1]) (now Scenario.fresh) "F"
       = Ok entries
       /\ In (Some "u1") (map link (firstn 3 entries)).
Proof.
  apply (records_only_feed_links (Scenario.healthy [Scenario.item1]) "X"
           (snd Scenario.source_X) Scenario.fresh "u1").
  reflexivity.
Defined.

(** ** The analysis script *)

Module AnalyzeFacts.
Import Analyze.

Lemma contains_append c a b :
  contains c (a ++ b) = contains c a || contains c b.
Proof.
  induction a as [|d a IH]; simpl; [reflexivity|].
  now rewrite IH, orb_assoc.
Qed.

Lemma replace_removes old new s :
  contains old new = false -> contains old (replace old new s) = false.
Proof.
  intros H. induction s as [|c r IH]; simpl; [reflexivity|].
  destruct (Ascii.eqb c old) eqn:E.
  - now rewrite contains_append, H, IH.
  - simpl. now rewrite E, IH.
Qed.

Lemma replace_absent old new s :
  contains old s = false -> replace old new s = s.
Proof.
  induction s as [|c r IH]; simpl; [reflexivity|]. intros H.
  apply orb_false_iff in H. destruct H as [Hc Hr].
  now rewrite Hc, (IH Hr).
Qed.

Lemma replace_char_length old c s :
  String.length (replace old (String c EmptyString) s) = String.length s.
Proof.
  induction s as [|d r IH]; simpl; [reflexivity|].
  destruct (Ascii.eqb d old); simpl; now rewrite IH.
Qed.

Lemma replace_empty_length old s :
  String.length (replace old EmptyString s) <= String.length s.
Proof.
  induction s as [|d r IH]; simpl; [lia|].
  destruct (Ascii.eqb d old); simpl; lia.
Qed.

Lemma take_length n s : String.length (take n s) <= n.
Proof.
  revert s. induction n as [|k IH]; intros [|c r]; simpl; try lia.
  specialize (IH r). lia.
Qed.

Lemma take_short n s : String.length s <= n -> take n s = s.
Proof.
  revert s. induction n as [|k IH]; intros [|c r]; simpl; intros H;
    try reflexivity; try lia.
  rewrite IH; [reflexivity|lia].
Qed.

Section Script.

Variables (vector coords clusters : Type).
Variable lab : Lab vector coords clusters.

(** The requests made by the loop of [get_embeddings]: one per text, in
    order, up to the first that raises. *)
Lemma embed_all_spec texts :
  forall (done : list vector) (tr : list (Call vector coords clusters)),
  exists k,
    k <= length texts
    /\ snd (embed_all lab texts done tr)
       = (tr ++ map request (firstn k texts))%list
    /\ (forall vs, fst (embed_all lab texts done tr) = Ok vs ->
                   k = length texts
                   /\ length vs = length done + length texts)
    /\ (forall e, fst (embed_all lab texts done tr) = Raise e ->
                  1 <= k
                  /\ lab_embeddings lab (length tr + (k - 1)) "mistral"
                       (replace newline " " (nth (k - 1) texts ""))
                     = Raise e).
Proof.
  induction texts as [|text rest IH]; intros done tr.
  - exists 0. simpl. rewrite app_nil_r. split; [lia|].
    split; [reflexivity|]. split.
    + intros vs [= <-]. split; [reflexivity|lia].
    + discriminate.
  - cbn [embed_all]. unfold bind, call.
    destruct (lab_embeddings lab (length tr) "mistral" (replace newline " " text))
      as [v|e] eqn:A.
    + destruct (IH (done ++ [v])%list (tr ++ [request text])%list)
        as (k & Hk & T & HOk & HRaise).
      exists (S k). split; [simpl; lia|]. split; [|split].
      * change (Embed "mistral" (replace newline " " text))
          with (@request vector coords clusters text). rewrite T, <- app_assoc. reflexivity.
      * change (Embed "mistral" (replace newline " " text))
          with (@request vector coords clusters text). intros vs E. destruct (HOk vs E) as [-> L].
        split; [reflexivity|]. rewrite length_app in L. simpl in *. lia.
      * change (Embed "mistral" (replace newline " " text))
          with (@request vector coords clusters text). intros e E. destruct (HRaise e E) as [K1 R].
        split; [lia|]. rewrite length_app in R. simpl in R.
        replace (S k - 1) with (S (k - 1)) by lia. cbn [nth].
        replace (length tr + S (k - 1)) with (length tr + 1 + (k - 1)) by lia.
        exact R.
    + exists 1. split; [simpl; lia|]. split; [|split].
      * reflexivity.
      * discriminate.
      * intros e' [= <-]. split; [lia|]. simpl. now rewrite Nat.add_0_r.
Qed.

(** [get_embeddings]: the requests of the loop, then the array. *)
Lemma get_embeddings_spec texts (tr : list (Call vector coords clusters)) :
  exists k,
    k <= length texts
    /\ snd (get_embeddings lab texts tr)
       = (tr ++ map request (firstn k texts))%list
    /\ (forall vs, fst (get_embeddings lab texts tr) = Ok vs ->
                   k = length texts
                   /\ length vs = length texts
                   /\ same_length lab vs = true)
    /\ (forall e, fst (get_embeddings lab texts tr) = Raise e ->
                  (1 <= k
                   /\ lab_embeddings lab (length tr + (k - 1)) "mistral"
                        (replace newline " " (nth (k - 1) texts ""))
                      = Raise e)
                  \/ (k = length texts
                      /\ exists vs,
                           fst (embed_all lab texts [] tr) = Ok vs
                           /\ length vs = length texts
                           /\ same_length lab vs = false)).
Proof.
  destruct (embed_all_spec texts [] tr) as (k & Hk & T & HOk & HRaise).
  exists k. split; [exact Hk|].
  unfold get_embeddings, bind.
  destruct (embed_all lab texts [] tr) as [[vs|e] tr1];
    cbn [fst snd] in T, HOk, HRaise.
  - destruct (HOk vs eq_refl) as [-> L]. simpl in L.
    unfold np_array. destruct (same_length lab vs) eqn:Same.
    + split; [exact T|]. split; [|discriminate].
      intros vs' [= <-]. repeat split; assumption.
    + split; [exact T|]. split; [discriminate|].
      intros e _. right. split; [reflexivity|].
      exists vs. repeat split; assumption.
  - split; [exact T|]. split; [discriminate|].
    intros e' [= <-]. left. exact (HRaise e eq_refl).
Qed.

Lemma annotate_all_spec (its : list (nat * string))
    (tr : list (Call vector coords clusters)) :
  for_each its
    (fun it => call (Annotate (label (snd it)) (fst it)) (fun _ => Ok tt)) tr
  = (Ok tt, (tr ++ map annotate its)%list).
Proof.
  revert tr. induction its as [|it its IH]; intros tr.
  - simpl. now rewrite app_nil_r.
  - cbn [for_each]. unfold bind at 1. unfold call at 1.
    rewrite IH, <- app_assoc. reflexivity.
Qed.

(** [main], outcome by outcome. *)
Lemma main_spec (tr : list (Call vector coords clusters)) :
  main lab tr =
    match get_data (lab_file lab) with
    | Raise e => (Raise e, tr)
    | Ok df =>
        if (length df <? 5)%nat then (Ok tt, tr)
        else
          match get_embeddings lab df tr with
          | (Raise e, tr1) => (Raise e, tr1)
          | (Ok vectors, tr1) =>
              let t1 := TSNE (perplexity (length df)) vectors in
              let t2 := KMeans num_clusters vectors in
              match lab_fit_transform lab (length tr1)
                      (perplexity (length df)) vectors with
              | Raise e => (Raise e, (tr1 ++ [t1])%list)
              | Ok xy =>
                  match lab_fit_predict lab (length (tr1 ++ [t1])%list)
                          num_clusters vectors with
                  | Raise e => (Raise e, ((tr1 ++ [t1]) ++ [t2])%list)
                  | Ok c =>
                      (Ok tt,
                       (((((tr1 ++ [t1]) ++ [t2]) ++ [Scatter xy c])
                         ++ map annotate (enumerate df))
                        ++ [Savefig "news_map.png"]) ++ [Show])%list
                  end
              end
          end
    end.
Proof.
  unfold main. unfold bind at 1.
  destruct (get_data (lab_file lab)) as [df|e]; [|reflexivity].
  destruct (length df <? 5)%nat; [reflexivity|].
  unfold bind at 1.
  destruct (get_embeddings lab df tr) as [[vectors|e] tr1]; [|reflexivity].
  cbv zeta. unfold bind at 1. unfold call at 1.
  destruct (lab_fit_transform lab (length tr1) (perplexity (length df)) vectors)
    as [xy|e]; [|reflexivity].
  unfold bind at 1. unfold call at 1.
  destruct (lab_fit_predict lab
              (length (tr1 ++ [TSNE (perplexity (length df)) vectors])%list)
              num_clusters vectors) as [c|e]; [|reflexivity].
  unfold bind at 1. unfold call at 1.
  unfold bind at 1. rewrite annotate_all_spec.
  unfold bind, call. reflexivity.
Qed.

End Script.

Lemma prompts_app {vector coords clusters}
    (a b : list (Call vector coords clusters)) :
  prompts (a ++ b)%list = (prompts a ++ prompts b)%list.
Proof.
  induction a as [|c a IH]; [reflexivity|].
  destruct c; simpl; rewrite IH; reflexivity.
Qed.

Lemma annotations_app {vector coords clusters}
    (a b : list (Call vector coords clusters)) :
  annotations (a ++ b)%list = (annotations a ++ annotations b)%list.
Proof.
  induction a as [|c a IH]; [reflexivity|].
  destruct c; simpl; rewrite IH; reflexivity.
Qed.

Lemma prompts_requests {vector coords clusters} (texts : list string) :
  prompts (map (@request vector coords clusters) texts)
  = map (fun s => ("mistral", replace newline " " s)) texts.
Proof. induction texts as [|s r IH]; simpl; [reflexivity|now rewrite IH]. Qed.

Lemma annotations_requests {vector coords clusters} (texts : list string) :
  annotations (map (@request vector coords clusters) texts) = [].
Proof. induction texts as [|s r IH]; simpl; [reflexivity|exact IH]. Qed.

Lemma annotations_annotate {vector coords clusters} (its : list (nat * string)) :
  annotations (map (@annotate vector coords clusters) its)
  = map (fun it => (fst it, label (snd it))) its.
Proof. induction its as [|s r IH]; simpl; [reflexivity|now rewrite IH]. Qed.

End AnalyzeFacts.

(** X18. The analysis needs five summaries.  On a database file without
    the table reading the data raises, and with fewer than five summaries
    that are not NULL, however many rows the table has, [main] returns at
    once: in both cases no call is made.  With five or more the first call
    is the request for the embedding of the first summary that is not
    NULL. *)
Theorem analysis_needs_five_summaries :
  forall (vector coords clusters : Type)
         (lab : Analyze.Lab vector coords clusters)
         (tr : list (Analyze.Call vector coords clusters)),
    (Analyze.lab_file lab = None ->
     exists e, Analyze.main lab tr = (Raise e, tr))
    /\ (forall column,
          Analyze.lab_file lab = Some column ->
          length (Analyze.non_null column) < 5 ->
          Analyze.main lab tr = (Ok tt, tr))
    /\ (forall column,
          Analyze.lab_file lab = Some column ->
          5 <= length (Analyze.non_null column) ->
          exists s rest,
            hd_error (Analyze.non_null column) = Some s
            /\ snd (Analyze.main lab tr)
               = (tr ++ Analyze.request s :: rest)%list).
Proof.
  intros vector coords clusters lab tr. split; [|split].
  - intros H. rewrite AnalyzeFacts.main_spec, H. simpl. eexists. reflexivity.
  - intros column H L. rewrite AnalyzeFacts.main_spec, H. simpl.
    apply Nat.ltb_lt in L. now rewrite L.
  - intros column H L. rewrite AnalyzeFacts.main_spec, H.
    cbn [Analyze.get_data].
    assert (L' : (length (Analyze.non_null column) <? 5)%nat = false)
      by (apply Nat.ltb_ge; exact L).
    rewrite L'.
    destruct (Analyze.non_null column) as [|s df'] eqn:Df;
      [simpl in L; lia|].
    exists s.
    destruct (AnalyzeFacts.get_embeddings_spec vector coords clusters lab
                (s :: df') tr) as (k & Hk & T & HOk & HRaise).
    assert (K : exists k', k = S k').
    { destruct (Analyze.get_embeddings lab (s :: df') tr)
        as [[vs|e] tr1]; cbn [fst] in HOk, HRaise.
      - destruct (HOk vs eq_refl) as [-> _]. simpl. eexists. reflexivity.
      - destruct (HRaise e eq_refl) as [[K1 _]|[-> _]].
        + exists (k - 1). lia.
        + simpl. eexists. reflexivity. }
    destruct K as (k' & ->). cbn [map firstn] in T.
    destruct (Analyze.get_embeddings lab (s :: df') tr)
      as [[vs|e] tr1]; cbn [snd] in T; subst tr1.
    + cbv zeta.
      destruct (Analyze.lab_fit_transform lab _ _ vs) as [xy|e];
        [destruct (Analyze.lab_fit_predict lab _ _ vs) as [c|e]|];
        cbn [snd]; rewrite <- ?app_assoc; cbn [app];
        eexists; (split; [reflexivity|reflexivity]).
    + eexists. split; reflexivity.
Qed.

Lemma analysis_needs_five_summaries_witness :
  Analyze.main
    {| Analyze.lab_file := Some [Some "S1"; None; None; None; None; None];
       Analyze.lab_len := fun _ : unit => 0;
       Analyze.lab_embeddings := fun _ _ _ => Ok tt;
       Analyze.lab_fit_transform := fun _ _ _ => Ok tt;
       Analyze.lab_fit_predict := fun _ _ _ => Ok tt |} []
  = (Ok tt, []).
Proof.
  apply (proj1 (proj2 (analysis_needs_five_summaries unit unit unit
                         {| Analyze.lab_file :=
                              Some [Some "S1"; None; None; None; None; None];
                            Analyze.lab_len := fun _ : unit => 0;
                            Analyze.lab_embeddings := fun _ _ _ => Ok tt;
                            Analyze.lab_fit_transform := fun _ _ _ => Ok tt;
                            Analyze.lab_fit_predict := fun _ _ _ => Ok tt |} []))
           [Some "S1"; None; None; None; None; None] eq_refl).
  simpl. lia.
Defined.

(** X19. [get_embeddings] asks for one embedding per text, in order, with
    the model "mistral" and the text in which every line break has become
    a space.  When it returns, every text has been sent, there is one
    vector per text and the vectors have one length.  When it raises,
    either a request raised, and no later text was sent, or every text
    was sent and answered and the vectors differ in length, which
    [np.array] refuses. *)
Theorem one_embedding_per_text :
  forall (vector coords clusters : Type)
         (lab : Analyze.Lab vector coords clusters)
         (texts : list string)
         (tr : list (Analyze.Call vector coords clusters)),
    (forall vs tr',
        Analyze.get_embeddings lab texts tr = (Ok vs, tr') ->
        length vs = length texts
        /\ Analyze.same_length lab vs = true
        /\ tr' = (tr ++ map Analyze.request texts)%list)
    /\ (forall e tr',
          Analyze.get_embeddings lab texts tr = (Raise e, tr') ->
          (exists k,
              k < length texts
              /\ tr' = (tr ++ map Analyze.request (firstn (S k) texts))%list
              /\ Analyze.lab_embeddings lab (length tr + k) "mistral"
                   (Analyze.replace Analyze.newline " " (nth k texts ""))
                 = Raise e)
          \/ (tr' = (tr ++ map Analyze.request texts)%list
              /\ exists vs,
                   fst (Analyze.embed_all lab texts [] tr) = Ok vs
                   /\ length vs = length texts
                   /\ Analyze.same_length lab vs = false))
    /\ forall s,
         contains Analyze.newline (Analyze.replace Analyze.newline " " s) = false
         /\ String.length (Analyze.replace Analyze.newline " " s)
            = String.length s.
Proof.
  intros vector coords clusters lab texts tr.
  destruct (AnalyzeFacts.get_embeddings_spec vector coords clusters lab texts tr)
    as (k & Hk & T & HOk & HRaise).
  split; [|split].
  - intros vs tr' E. rewrite E in *. cbn [fst snd] in *.
    destruct (HOk vs eq_refl) as (-> & L & Same). rewrite firstn_all in T.
    repeat split; assumption.
  - intros e tr' E. rewrite E in *. cbn [fst snd] in *.
    destruct (HRaise e eq_refl) as [[K1 R]|[-> Hvs]].
    + left. exists (k - 1).
      replace (S (k - 1)) with k by lia. split; [lia|]. split; assumption.
    + right. rewrite firstn_all in T. split; assumption.
  - intros s. split.
    + now apply AnalyzeFacts.replace_removes.
    + apply AnalyzeFacts.replace_char_length.
Qed.

Lemma one_embedding_per_text_witness :
  (length [tt; tt] = length ["a" ++ Py.nl ++ "b"; "c"]
   /\ Analyze.same_length
        {| Analyze.lab_file := None;
           Analyze.lab_len := fun _ : unit => 0;
           Analyze.lab_embeddings := fun _ _ _ => Ok tt;
           Analyze.lab_fit_transform := fun _ _ _ => @Ok unit tt;
           Analyze.lab_fit_predict := fun _ _ _ => @Ok unit tt |} [tt; tt] = true
   /\ [@Analyze.Embed unit unit unit "mistral" "a b"; Analyze.Embed "mistral" "c"]
      = ([] ++ map Analyze.request [("a" ++ Py.nl ++ "b")%string; "c"])%list)
  /\ exists vs,
       fst (Analyze.embed_all
              {| Analyze.lab_file := None;
                 Analyze.lab_len := fun v : nat => v;
                 Analyze.lab_embeddings := fun t _ _ => Ok t;
                 Analyze.lab_fit_transform := fun _ _ _ => @Ok unit tt;
                 Analyze.lab_fit_predict := fun _ _ _ => @Ok unit tt |}
              ["a"; "c"] [] []) = Ok vs
       /\ length vs = length ["a"; "c"]
       /\ Analyze.same_length
            {| Analyze.lab_file := None;
               Analyze.lab_len := fun v : nat => v;
               Analyze.lab_embeddings := fun t _ _ => Ok t;
               Analyze.lab_fit_transform := fun _ _ _ => @Ok unit tt;
               Analyze.lab_fit_predict := fun _ _ _ => @Ok unit tt |} vs = false.
Proof.
  split.
  - apply (proj1 (one_embedding_per_text unit unit unit
                    {| Analyze.lab_file := None;
                       Analyze.lab_len := fun _ : unit => 0;
                       Analyze.lab_embeddings := fun _ _ _ => Ok tt;
                       Analyze.lab_fit_transform := fun _ _ _ => Ok tt;
                       Analyze.lab_fit_predict := fun _ _ _ => Ok tt |}
                    ["a" ++ Py.nl ++ "b"; "c"] [])
             [tt; tt]
             [Analyze.Embed "mistral" "a b"; Analyze.Embed "mistral" "c"]).
    vm_compute. reflexivity.
  - destruct (proj1 (proj2 (one_embedding_per_text nat unit unit
                              {| Analyze.lab_file := None;
                                 Analyze.lab_len := fun v : nat => v;
                                 Analyze.lab_embeddings := fun t _ _ => Ok t;
                                 Analyze.lab_fit_transform := fun _ _ _ => Ok tt;
                                 Analyze.lab_fit_predict := fun _ _ _ => Ok tt |}
                              ["a"; "c"] []))
                (Exception
                   ("setting an array element with a sequence. The requested array "
                    ++ "has an inhomogeneous shape after 1 dimensions. The detected "
                    ++ "shape was (2,) + inhomogeneous part."))
                [Analyze.Embed "mistral" "a"; Analyze.Embed "mistral" "c"])
      as [(k & _ & _ & R)|[_ H]].
    + vm_compute. reflexivity.
    + discriminate R.
    + exact H.
Defined.

(** X20. The numeric routines get parameters that fit the data.  Whenever
    [main] calls t-SNE the perplexity lies between 4 and 30 and is smaller
    than the number of vectors, and whenever it calls K-Means the number
    of clusters is 3 and there are at least as many vectors. *)
Theorem numeric_parameters_fit_the_data :
  forall (vector coords clusters : Type)
         (lab : Analyze.Lab vector coords clusters)
         (tr : list (Analyze.Call vector coords clusters)),
    (forall perp vs,
        In (Analyze.TSNE perp vs) (snd (Analyze.main lab tr)) ->
        In (Analyze.TSNE perp vs) tr
        \/ (4 <= perp <= 30 /\ perp < Z.of_nat (length vs))%Z)
    /\ (forall k vs,
          In (Analyze.KMeans k vs) (snd (Analyze.main lab tr)) ->
          In (Analyze.KMeans k vs) tr
          \/ (k = 3 /\ k <= Z.of_nat (length vs))%Z).
Proof.
  intros vector coords clusters lab tr.
  assert (NR : forall (c : Analyze.Call vector coords clusters) l,
             In c (map Analyze.request l) -> exists s, c = Analyze.request s).
  { intros c l H. apply in_map_iff in H. destruct H as (s & <- & _).
    now exists s. }
  assert (NA : forall (c : Analyze.Call vector coords clusters) l,
             In c (map Analyze.annotate l) -> exists it, c = Analyze.annotate it).
  { intros c l H. apply in_map_iff in H. destruct H as (s & <- & _).
    now exists s. }
  rewrite AnalyzeFacts.main_spec.
  destruct (Analyze.get_data (Analyze.lab_file lab)) as [df|e];
    [|split; intros; now left].
  destruct (length df <? 5)%nat eqn:L5; [split; intros; now left|].
  apply Nat.ltb_ge in L5.
  destruct (AnalyzeFacts.get_embeddings_spec vector coords clusters lab df tr)
    as (k & Hk & T & HOk & _).
  destruct (Analyze.get_embeddings lab df tr) as [[vectors|e] tr1];
    cbn [fst snd] in T, HOk; subst tr1.
  - destruct (HOk vectors eq_refl) as (_ & Lv & _). cbv zeta.
    assert (B : (4 <= Analyze.perplexity (length df) <= 30
                 /\ Analyze.perplexity (length df) < Z.of_nat (length vectors)
                 /\ Analyze.num_clusters = 3
                 /\ Analyze.num_clusters <= Z.of_nat (length vectors))%Z).
    { unfold Analyze.perplexity, Analyze.num_clusters. lia. }
    destruct B as (B1 & B2 & B3 & B4).
    destruct (Analyze.lab_fit_transform lab _ _ vectors) as [xy|e];
      [destruct (Analyze.lab_fit_predict lab _ _ vectors) as [c|e]|];
      cbn [snd]; split; intros p vs H;
      repeat (apply in_app_or in H; destruct H as [H|H]);
      try (now left);
      try (apply NR in H; destruct H as (s & H); discriminate H);
      try (apply NA in H; destruct H as (s & H); discriminate H);
      try (destruct H as [H|[]]; try discriminate H;
           injection H as <- <-; right; split; assumption).
  - split; intros p vs H; apply in_app_or in H; destruct H as [H|H];
      try (now left); apply NR in H; destruct H as (s & H); discriminate H.
Qed.

Lemma numeric_parameters_fit_the_data_witness :
  In (@Analyze.TSNE unit unit unit 4 [tt; tt; tt; tt; tt]) []
  \/ (4 <= 4 <= 30 /\ 4 < Z.of_nat (length [tt; tt; tt; tt; tt]))%Z.
Proof.
  apply (proj1 (numeric_parameters_fit_the_data unit unit unit
                  {| Analyze.lab_file :=
                       Some (Analyze.column_of
                               (map (fun u => {| url := u; summary := "S" |})
                                  ["a"; "b"; "c"; "d"; "e"]));
                     Analyze.lab_len := fun _ : unit => 0;
                     Analyze.lab_embeddings := fun _ _ _ => Ok tt;
                     Analyze.lab_fit_transform := fun _ _ _ => Ok tt;
                     Analyze.lab_fit_predict := fun _ _ _ => Ok tt |} [])).
  vm_compute. do 5 right. left. reflexivity.
Defined.

(** X21. The texts written on the figure: the first fifteen characters of
    a summary without their line breaks, followed by three dots, so at
    most eighteen characters on one line.  When [main] runs to the end
    there is one text per summary that is not NULL, in the order of the
    table, each with its index in the frame of these summaries. *)
Theorem labels_fit_the_figure :
  (forall txt,
      String.length (Analyze.label txt) <= 18
      /\ contains Analyze.newline (Analyze.label txt) = false
      /\ (String.length txt <= 15 -> contains Analyze.newline txt = false ->
          Analyze.label txt = txt ++ "..."))
  /\ forall (vector coords clusters : Type)
            (lab : Analyze.Lab vector coords clusters)
            (tr : list (Analyze.Call vector coords clusters)) column,
       Analyze.lab_file lab = Some column ->
       5 <= length (Analyze.non_null column) ->
       fst (Analyze.main lab tr) = Ok tt ->
       Analyze.annotations (snd (Analyze.main lab tr))
       = (Analyze.annotations tr
          ++ combine (seq 0 (length (Analyze.non_null column)))
               (map Analyze.label (Analyze.non_null column)))%list.
Proof.
  split.
  - intros txt. unfold Analyze.label. split; [|split].
    + rewrite ReMore.length_append.
      pose proof (AnalyzeFacts.replace_empty_length Analyze.newline
                    (Analyze.take 15 txt)) as H1.
      pose proof (AnalyzeFacts.take_length 15 txt) as H2.
      change (String.length "...") with 3. lia.
    + rewrite AnalyzeFacts.contains_append.
      rewrite AnalyzeFacts.replace_removes by reflexivity. reflexivity.
    + intros L N. rewrite (AnalyzeFacts.take_short 15 txt L).
      now rewrite AnalyzeFacts.replace_absent.
  - intros vector coords clusters lab tr column Hfile L.
    rewrite AnalyzeFacts.main_spec, Hfile. cbn [Analyze.get_data].
    assert (L' : (length (Analyze.non_null column) <? 5)%nat = false)
      by (apply Nat.ltb_ge; exact L).
    rewrite L'.
    destruct (AnalyzeFacts.get_embeddings_spec vector coords clusters lab
                (Analyze.non_null column) tr) as (k & Hk & T & HOk & _).
    destruct (Analyze.get_embeddings lab (Analyze.non_null column) tr)
      as [[vectors|e] tr1]; cbn [fst snd] in T, HOk; [|discriminate].
    destruct (HOk vectors eq_refl) as [-> _]. rewrite firstn_all in T.
    subst tr1. cbv zeta.
    destruct (Analyze.lab_fit_transform lab _ _ vectors) as [xy|e];
      [|discriminate].
    destruct (Analyze.lab_fit_predict lab _ _ vectors) as [c|e];
      [|discriminate].
    intros _. cbn [snd].
    rewrite !AnalyzeFacts.annotations_app, AnalyzeFacts.annotations_requests,
      AnalyzeFacts.annotations_annotate.
    cbn [Analyze.annotations]. rewrite !app_nil_r. f_equal.
    unfold Analyze.enumerate.
    generalize (seq 0 (length (Analyze.non_null column))).
    generalize (Analyze.non_null column). clear.
    induction l as [|r t IH]; intros [|n ns]; simpl; try reflexivity.
    now rewrite IH.
Qed.

Lemma labels_fit_the_figure_witness :
  Analyze.label "Key Points" = "Key Points" ++ "..."
  /\ Analyze.annotations
       (snd (Analyze.main
               {| Analyze.lab_file :=
                    Some [Some "a"; None; Some "b"; Some "c"; Some "d"; Some "e"];
                  Analyze.lab_len := fun _ : unit => 0;
                  Analyze.lab_embeddings := fun _ _ _ => Ok tt;
                  Analyze.lab_fit_transform := fun _ _ _ => @Ok unit tt;
                  Analyze.lab_fit_predict := fun _ _ _ => @Ok unit tt |} []))
     = [(0, "a..."); (1, "b..."); (2, "c..."); (3, "d..."); (4, "e...")].
Proof.
  split.
  - apply (proj2 (proj2 (proj1 labels_fit_the_figure "Key Points"))).
    + simpl. lia.
    + reflexivity.
  - apply (proj2 labels_fit_the_figure unit unit unit
             {| Analyze.lab_file :=
                  Some [Some "a"; None; Some "b"; Some "c"; Some "d"; Some "e"];
                Analyze.lab_len := fun _ : unit => 0;
                Analyze.lab_embeddings := fun _ _ _ => Ok tt;
                Analyze.lab_fit_transform := fun _ _ _ => Ok tt;
                Analyze.lab_fit_predict := fun _ _ _ => Ok tt |} []
             [Some "a"; None; Some "b"; Some "c"; Some "d"; Some "e"]).
    + reflexivity.
    + simpl. lia.
    + vm_compute. reflexivity.
Defined.

(** ** What the table holds *)

Module SummaryFacts.
Import NewsBot.

Lemma replied_later env w w' d r :
  trace w' = (trace w ++ d)%list -> replied env w r -> replied env w' r.
Proof.
  intros T (n & text & N & E). exists n, text. split; [|exact E].
  rewrite T, nth_error_app1; [exact N|].
  apply nth_error_Some. rewrite N. discriminate.
Qed.

Lemma Forall_replied_later env w w' d t :
  trace w' = (trace w ++ d)%list ->
  Forall (replied env w) t -> Forall (replied env w') t.
Proof.
  intros T H. eapply Forall_impl; [|exact H].
  intros r. now apply (replied_later env w w' d).
Qed.

Section Facts.

Variable env : Env.

Lemma process_entry_replied country channel entry w :
  Forall (replied env w) (db w) ->
  Forall (replied env (snd (process_entry env country channel entry w)))
    (db (snd (process_entry env country channel entry w))).
Proof.
  intros H.
  destruct (link entry) as [u|] eqn:Hl;
    [|now rewrite BotFacts.process_entry_no_link].
  destruct (DatabaseManager.has_url u (db w)) eqn:Hp;
    [now rewrite (BotFacts.process_entry_posted env _ _ _ u)|].
  destruct (title entry) as [t|] eqn:Ht;
    [|now rewrite (BotFacts.process_entry_no_title env _ _ _ u)].
  pose proof (BotFacts.process_entry_new env country channel entry u t w
                Hl Ht Hp) as E.
  cbv zeta in E.
  assert (Old : forall w',
             (exists d, trace w'
                        = (trace w ++ EvPost (summary_request entry t) :: d)%list) ->
             Forall (replied env w') (db w)
             /\ replied env w'
                  {| url := u; summary := key_points_at env entry t w |}).
  { intros w' (d & T). split.
    - now apply (Forall_replied_later env w w' _ (db w) T).
    - exists (now w), (remove_tags (body_text entry t)). split; [|reflexivity].
      rewrite T, nth_error_app2 by (unfold now; lia).
      unfold now. rewrite Nat.sub_diag. reflexivity. }
  rewrite E.
  destruct (env_send env (now w + 2) channel (message_at env entry u t w))
    as [[]|ex];
    [destruct (env_get_channel env (now w + 3) GLOBAL_CHANNEL_ID);
     [destruct (env_send env (now w + 3) GLOBAL_CHANNEL_ID
                  (format_global country (message_at env entry u t w)))
        as [[]|ex]|]|];
    cbn [snd db emit record enriched];
    match goal with
    | |- Forall (replied env ?w') _ =>
        destruct (Old w') as [O1 O2];
        [eexists; cbn [trace emit record enriched];
         rewrite <- !app_assoc; reflexivity|]
    end;
    try exact O1;
    (apply Forall_app; split; [exact O1|constructor; [exact O2|constructor]]).
Qed.

Lemma for_each_replied country channel entries w :
  Forall (replied env w) (db w) ->
  Forall
    (replied env (snd (for_each entries (process_entry env country channel) w)))
    (db (snd (for_each entries (process_entry env country channel) w))).
Proof.
  revert w. induction entries as [|e es IH]; intros w H; [assumption|].
  simpl. unfold bind.
  pose proof (process_entry_replied country channel e w H) as H1.
  destruct (process_entry env country channel e w) as [[[]|ex] w1];
    simpl in H1; [now apply IH|assumption].
Qed.

Lemma process_rss_replied country config w :
  Forall (replied env w) (db w) ->
  Forall (replied env (snd (process_rss env country config w)))
    (db (snd (process_rss env country config w))).
Proof.
  intros H. rewrite BotFacts.process_rss_eq. cbn [snd].
  destruct (BotFacts.process_rss_body_cases env country config w)
    as [[_ E]|(id & Hc & Hid & Hch)]; [now rewrite E|].
  rewrite (BotFacts.process_rss_body_eq env country config id w Hc Hid Hch).
  assert (F : Forall (replied env (emit (EvFetch (rss_url config)) w))
                (db (emit (EvFetch (rss_url config)) w))).
  { now apply (Forall_replied_later env w _ [EvFetch (rss_url config)]). }
  destruct (env_parse env (now w) (rss_url config)) as [entries|ex];
    [|exact F].
  now apply for_each_replied.
Qed.

Lemma news_loop_replied sources w :
  Forall (replied env w) (db w) ->
  Forall (replied env (snd (news_loop env sources w)))
    (db (snd (news_loop env sources w))).
Proof.
  rewrite BotFacts.news_loop_eq. cbn [snd]. revert w.
  induction sources as [|[country config] rest IH]; intros w H; [assumption|].
  simpl. apply IH. now apply process_rss_replied.
Qed.

Lemma run_replied sources n w :
  Forall (replied env w) (db w) ->
  Forall (replied env (snd (run env sources n w)))
    (db (snd (run env sources n w))).
Proof.
  revert w. induction n as [|k IH]; intros w H; [assumption|].
  rewrite CycleFacts.run_step. apply IH. now apply news_loop_replied.
Qed.

End Facts.
End SummaryFacts.

(** X22. A bot started on a fresh database stores only what it was
    answered.  After any number of cycles the summary of every row is the
    text [query_llm] made of the answer to a request for a summary that
    the bot itself sent: the request is among the calls made, and the
    answer is the one given to that call.  The text is the trimmed field
    [response] of a body received with status 200, or it starts with
    "Error: " or with "LLM Error: ". *)
Theorem stored_summaries_are_replies :
  forall env sources n r,
    In r (db (snd (run env sources n (start None)))) ->
    exists m text,
      nth_error (trace (snd (run env sources n (start None)))) m
      = Some (EvPost (NewsBot.make_payload NewsBot.summary_instruction text))
      /\ summary r
         = reply_text
             (env_post env m
                (NewsBot.make_payload NewsBot.summary_instruction text))
      /\ ((exists response data,
              env_post env m
                (NewsBot.make_payload NewsBot.summary_instruction text)
              = Ok response
              /\ status response = 200%Z /\ json response = Ok data
              /\ summary r = strip (dict_get data "response" ""))
          \/ exists detail,
               summary r = "Error: " ++ detail
               \/ summary r = "LLM Error: " ++ detail).
Proof.
  intros env sources n r H.
  pose proof (SummaryFacts.run_replied env sources n (start None) (Forall_nil _))
    as F.
  rewrite Forall_forall in F. destruct (F r H) as (m & text & N & E).
  exists m, text. split; [exact N|]. split; [exact E|].
  rewrite E. unfold reply_text.
  destruct (env_post env m
              (NewsBot.make_payload NewsBot.summary_instruction text))
    as [response|e].
  - destruct (status response =? 200)%Z eqn:S.
    + apply Z.eqb_eq in S. destruct (json response) as [data|e] eqn:J.
      * left. exists response, data. repeat split; assumption.
      * right. exists (str_exn e). now right.
    + right. exists (str_int (status response)). now left.
  - right. exists (str_exn e). now right.
Qed.

Lemma stored_summaries_are_replies_witness :
  exists m text,
    nth_error (trace (snd (run Scenario.failing [Scenario.source_X] 1
                             (start None)))) m
    = Some (EvPost (NewsBot.make_payload NewsBot.summary_instruction text))
    /\ "Error: 500"
       = reply_text
           (env_post Scenario.failing m
              (NewsBot.make_payload NewsBot.summary_instruction text)).
Proof.
  destruct (stored_summaries_are_replies Scenario.failing [Scenario.source_X] 1
              {| url := "u1"; summary := "Error: 500" |})
    as (m & text & N & E & _).
  - vm_compute. left. reflexivity.
  - exists m, text. split; [exact N|exact E].
Defined.
